(** * hyperglass front end: the query handler of [hyperglass/hyperglass.py]

    A shallow embedding of the [/query] route ([hyperglass_main]), of the
    exception handler it relies on ([handle_ui_errors]) and of [clear_cache],
    over an explicit model of what they touch: the Redis cache, the clock,
    the backend [Execute(...).response()] and the Prometheus counters. *)

From Stdlib Require Import ZArith Lia List Ascii String DecimalString DecimalPos.
From stdpp Require Import gmap strings.

Local Open Scope string_scope.
Local Open Scope Z_scope.

(** ** Python text and values

    Python [str] values are modelled as [string]; every [ascii] stands for
    the code point of the same number (the Latin-1 range of Unicode). *)

Module Py.

Definition squote : ascii := "'"%char.
Definition dquote : ascii := "034"%char.
Definition backslash : ascii := "\"%char.

(** [Py_hexdigits], indexed by a nibble. *)
Definition hexdigit (n : N) : ascii :=
  match n with
  | 0%N => "0" | 1%N => "1" | 2%N => "2" | 3%N => "3"
  | 4%N => "4" | 5%N => "5" | 6%N => "6" | 7%N => "7"
  | 8%N => "8" | 9%N => "9" | 10%N => "a" | 11%N => "b"
  | 12%N => "c" | 13%N => "d" | 14%N => "e" | _ => "f"
  end%char.

(** [str.isprintable] on one code point below 256: the C0 and C1 controls,
    DEL, the no-break space and the soft hyphen are not printable. *)
Definition isprintable (c : ascii) : bool :=
  let n := N_of_ascii c in
  ((32 <=? n) && (n <? 127) || (160 <? n) && negb (n =? 173))%N.

(** One character of [unicode_repr] between quotes [q]. *)
Definition repr_char (q c : ascii) : string :=
  let n := N_of_ascii c in
  if Ascii.eqb c q || Ascii.eqb c backslash then String backslash (String c "")
  else if (n =? 9)%N then String backslash "t"
  else if (n =? 10)%N then String backslash "n"
  else if (n =? 13)%N then String backslash "r"
  else if isprintable c then String c ""
  else String backslash
         (String "x" (String (hexdigit (N.shiftr n 4))
                        (String (hexdigit (N.land n 15)) ""))).

Fixpoint repr_body (q : ascii) (s : string) : string :=
  match s with
  | "" => ""
  | String c s' => repr_char q c ++ repr_body q s'
  end.

Fixpoint has_char (c : ascii) (s : string) : bool :=
  match s with
  | "" => false
  | String d s' => Ascii.eqb d c || has_char c s'
  end.

(** The quote [repr] picks: double quotes only when the text holds a single
    quote and no double quote. *)
Definition repr_quote (s : string) : ascii :=
  if has_char squote s && negb (has_char dquote s) then dquote else squote.

(** [repr(s)] for a [str]. *)
Definition repr_str (s : string) : string :=
  let q := repr_quote s in
  String q (repr_body q s ++ String q "").

(** Python objects the backend may hand back. *)
#[warnings="-register-all"]
Inductive pyval : Type :=
| PyNone
| PyBool (b : bool)
| PyInt (z : Z)
| PyStr (s : string)
| PyTuple (l : list pyval).

(** Truth value testing ([not x] is its negation). *)
Definition truthy (v : pyval) : bool :=
  match v with
  | PyNone => false
  | PyBool b => b
  | PyInt z => negb (z =? 0)
  | PyStr s => negb (String.eqb s "")
  | PyTuple l => match l with [] => false | _ => true end
  end.

Fixpoint repr (v : pyval) : string :=
  match v with
  | PyNone => "None"
  | PyBool true => "True"
  | PyBool false => "False"
  | PyInt z => NilZero.string_of_int (Z.to_int z)
  | PyStr s => repr_str s
  | PyTuple l =>
      match l with
      | [] => "()"
      | [a] => "(" ++ repr a ++ ",)"
      | _ => "(" ++ String.concat ", " (map repr l) ++ ")"
      end
  end.

(** [str(v)]: the text itself for a [str], [repr] for the rest. *)
Definition str (v : pyval) : string :=
  match v with
  | PyStr s => s
  | _ => repr v
  end.

(** A [dict] with [str] keys and [str] values, in insertion order (the order
    of the members of the JSON body it was decoded from). The fields of a
    query are texts; other JSON values are not part of the model. *)
Definition dict : Type := list (string * string).

Definition repr_item (kv : string * string) : string :=
  repr_str (fst kv) ++ ": " ++ repr_str (snd kv).

(** [str(d)] for a dict. *)
Definition dict_str (d : dict) : string :=
  "{" ++ String.concat ", " (map repr_item d) ++ "}".

(** [d[k]]: [None] stands for [KeyError]. *)
Fixpoint dict_get (d : dict) (k : string) : option string :=
  match d with
  | [] => None
  | (k', v) :: d' => if String.eqb k' k then Some v else dict_get d' k
  end.

(** [x in l] for a list of [str]. *)
Definition contains (l : list string) (x : string) : bool :=
  existsb (String.eqb x) l.

(** What the proofs about [repr] compute with. *)

(** Every character is one of the 256 code points. *)
Definition all_ascii : list ascii := map ascii_of_nat (seq 0 256).

(** One of the two texts starts with the other. *)
Fixpoint compatible (a b : string) : bool :=
  match a, b with
  | String x a', String y b' => Ascii.eqb x y && compatible a' b'
  | _, _ => true
  end.

(** The two quotes [repr] chooses from. *)
Definition is_quote (q : ascii) : Prop := q = squote \/ q = dquote.

(** No escape is the start of another one. *)
Definition prefix_free_at (q : ascii) : bool :=
  forallb (fun c =>
    forallb (fun c' =>
      implb (compatible (repr_char q c) (repr_char q c')) (Ascii.eqb c c'))
    all_ascii) all_ascii.

(** No escape starts with the quote. *)
Definition quote_free_at (q : ascii) : bool :=
  forallb (fun c => match repr_char q c with
                    | String d _ => negb (Ascii.eqb d q)
                    | EmptyString => false
                    end) all_ascii.

End Py.

(** ** What the handler is given: configuration, request, backend *)

(** The dict a typed backend failure carries.

    Modelled from the spec: the exception classes of [hyperglass.exceptions]
    are not part of the source file; a typed failure carries an HTTP-style
    status, a message and keyword tags, and [backend_error.__dict__()] hands
    them over as the dict with the keys [message], [status], [keywords]. *)
Record error_dict : Type := {
  message : string;
  status : Z;
  keywords : list string;
}.

(** The exception classes that line 265 catches. *)
Inductive backend_error : Type :=
| AuthError | RestError | ScrapeError | InputInvalid | InputNotAllowed.

(** What awaiting [Execute(lg_data).response()] comes to. *)
Inductive exec_outcome : Type :=
| Returns (v : Py.pyval)
| RaisesTyped (k : backend_error) (e : error_dict)
| RaisesOther (name : string).

(** The names the module imports from the rest of the package. The backend
    may answer differently at different times. *)
Record Config : Type := {
  hostnames : list string;                      (* devices.hostnames *)
  is_supported_query : string -> bool;          (* Supported.is_supported_query *)
  no_input : string;                            (* params.messages.no_input *)
  request_timeout : string;                     (* params.messages.request_timeout *)
  cache_timeout : Z;                            (* params.features.cache.timeout *)
  get_reason : Z -> string;                     (* code.get_reason *)
  Execute : Z -> Py.dict -> exec_outcome;       (* Execute(lg_data).response() *)
}.

(** The part of a Sanic request the handlers read. *)
Record Request : Type := {
  json : Py.dict;                               (* request.json *)
  remote_addr : string;                         (* get_remote_address(request) *)
}.

Inductive json_body : Type :=
| Output (output : option string)
| OutputStatusKeywords (output : string) (status : Z) (keywords : list string).

(** [response.json(body, status=...)]. *)
Record response : Type := {
  body : json_body;
  http_status : Z;
}.

(** ** The cache store and the clock *)

Record entry : Type := {
  value : string;
  expire_at : option Z;
}.

(** The Redis database [r_cache] talks to, the time in seconds, and whether
    the server can be reached ([Some msg]: every command raises
    [ConnectionError(msg)]). Redis is not part of the repository: GET, SET,
    EXPIRE and FLUSHDB below are the commands as Redis documents them. *)
Record World : Type := {
  clock : Z;
  db : gmap string entry;
  down : option string;
}.

Definition live (now : Z) (e : entry) : bool :=
  match expire_at e with
  | None => true
  | Some t => now <? t
  end.

(** GET: the value of a key that is there and has not expired. *)
Definition cache_lookup (w : World) (k : string) : option string :=
  match db w !! k with
  | Some e => if live (clock w) e then Some (value e) else None
  | None => None
  end.

Definition set_db (w : World) (d : gmap string entry) : World :=
  {| clock := clock w; db := d; down := down w |}.

(** SET: the value replaces what the key held, and the key has no expiry. *)
Definition cache_store (w : World) (k v : string) : World :=
  set_db w (<[k := {| value := v; expire_at := None |}]> (db w)).

(** EXPIRE: a key that is there expires [ttl] seconds from now. *)
Definition cache_expire (w : World) (k : string) (ttl : Z) : World :=
  set_db w
    match db w !! k with
    | Some e =>
        if live (clock w) e
        then <[k := {| value := value e; expire_at := Some (clock w + ttl) |}]> (db w)
        else db w
    | None => db w
    end.

(** FLUSHDB. *)
Definition cache_flush (w : World) : World := set_db w ∅.

(** What the rest of the system does while a coroutine is suspended: time
    passes, the connection to Redis is lost or comes back. Writes of other
    clients to the database are not part of the model. *)
Inductive env_action : Type :=
| Elapse (dt : N)
| Disconnect (msg : string)
| Reconnect.

Definition apply_env (a : env_action) (w : World) : World :=
  match a with
  | Elapse dt => {| clock := clock w + Z.of_N dt; db := db w; down := down w |}
  | Disconnect msg => {| clock := clock w; db := db w; down := Some msg |}
  | Reconnect => {| clock := clock w; db := db w; down := None |}
  end.

(** ** Effects *)

Inductive handler : Type := handle_missing_h | handle_ui_errors_h.

(** The object an [async def] returns when it is called and not awaited. *)
Inductive coroutine : Type :=
| Coroutine (h : handler) (request : Request) (exception : string).

Inductive exn : Type :=
| KeyError (k : string)
| TypeError_not_an_exception (c : coroutine)
| BackendError (k : backend_error) (e : error_dict)
| InvalidUsage (args0 : error_dict)
| ConnectionError (msg : string)
| HyperglassError (msg : string)
| OtherError (name : string).

(** Calls that leave the module, in the order they are made. *)
Inductive event : Type :=
| EvCacheGet (k : string) (r : option string)
| EvCacheSet (k v : string)
| EvCacheExpire (k : string) (ttl : Z)
| EvCacheFlush
| EvCacheFailed (msg : string)
| EvExecute (lg_data : Py.dict) (o : exec_outcome)
| EvCountData (source query_type loc_id target : string)
| EvCountErrors (code : Z) (reason source query_type loc_id target : string).

Record State : Type := {
  world : World;
  schedule : list env_action;
  log : list event;
}.

Inductive result (A : Type) : Type :=
| Ok (a : A)
| Raise (e : exn).
Arguments Ok {A} a.
Arguments Raise {A} e.

Definition M (A : Type) : Type := State -> result A * State.

#[export] Instance M_ret : MRet M := fun A a s => (Ok a, s).
#[export] Instance M_bind : MBind M := fun A B f m s =>
  match m s with
  | (Ok a, s') => f a s'
  | (Raise e, s') => (Raise e, s')
  end.

Definition raise {A} (e : exn) : M A := fun s => (Raise e, s).

(** [try: m except Exception as e: h e]. *)
Definition try_except {A} (m : M A) (h : exn -> M A) : M A := fun s =>
  match m s with
  | (Ok a, s') => (Ok a, s')
  | (Raise e, s') => h e s'
  end.

(** [raise c] for a coroutine object [c]: it is no exception, and Python
    raises [TypeError: exceptions must derive from BaseException]. *)
Definition raise_coroutine {A} (c : coroutine) : M A :=
  raise (TypeError_not_an_exception c).

Definition emit (e : event) : M unit := fun s =>
  (Ok tt, {| world := world s; schedule := schedule s; log := log s ++ [e] |}).

Definition get_world : M World := fun s => (Ok (world s), s).

Definition put_world (w : World) : M unit := fun s =>
  (Ok tt, {| world := w; schedule := schedule s; log := log s |}).

(** A suspension point: the next scheduled action of the environment, if
    any, takes place before the awaited call completes. *)
Definition suspend : M unit := fun s =>
  match schedule s with
  | [] => (Ok tt, s)
  | a :: rest =>
      (Ok tt, {| world := apply_env a (world s); schedule := rest; log := log s |})
  end.

(** A command sent to Redis: it fails when the server is out of reach. *)
Definition redis_command {A} (f : World -> M A) : M A :=
  suspend ;;
  w ← get_world;
  match down w with
  | Some msg => emit (EvCacheFailed msg) ;; raise (ConnectionError msg)
  | None => f w
  end.

Definition r_cache_get (k : string) : M (option string) :=
  redis_command (fun w =>
    let r := cache_lookup w k in
    emit (EvCacheGet k r) ;; mret r).

Definition r_cache_set (k v : string) : M unit :=
  redis_command (fun w =>
    put_world (cache_store w k v) ;; emit (EvCacheSet k v)).

Definition r_cache_expire (k : string) (ttl : Z) : M unit :=
  redis_command (fun w =>
    put_world (cache_expire w k ttl) ;; emit (EvCacheExpire k ttl)).

Definition r_cache_flushdb : M unit :=
  redis_command (fun w =>
    put_world (cache_flush w) ;; emit EvCacheFlush).

(** [await Execute(lg_data).response()]. *)
Definition execute_response (cfg : Config) (lg_data : Py.dict) : M Py.pyval :=
  suspend ;;
  w ← get_world;
  let o := Execute cfg (clock w) lg_data in
  emit (EvExecute lg_data o) ;;
  match o with
  | Returns v => mret v
  | RaisesTyped k e => raise (BackendError k e)
  | RaisesOther name => raise (OtherError name)
  end.

(** [d[k]] in a handler. *)
Definition getitem (d : Py.dict) (k : string) : M string :=
  match Py.dict_get d k with
  | Some v => mret v
  | None => raise (KeyError k)
  end.

Definition when (b : bool) (m : M unit) : M unit :=
  if b then m else mret tt.

(** ** The handlers *)

Definition get_remote_address (request : Request) : string := remote_addr request.

(** [count_data.labels(...).inc()] and [count_errors.labels(...).inc()]. *)
Definition count_data_inc (source query_type loc_id target : string) : M unit :=
  emit (EvCountData source query_type loc_id target).

Definition count_errors_inc (code : Z) (reason source query_type loc_id target : string)
  : M unit :=
  emit (EvCountErrors code reason source query_type loc_id target).

(** [str(e)] for an exception. *)
Definition exn_str (e : exn) : string :=
  match e with
  | KeyError k => Py.repr_str k
  | TypeError_not_an_exception _ => "exceptions must derive from BaseException"
  | BackendError _ d => message d
  | InvalidUsage d => message d
  | ConnectionError msg => msg
  | HyperglassError msg => msg
  | OtherError name => name
  end.

(** Lines 127-146. [error] is [exception.args[0]]. *)
Definition handle_ui_errors (cfg : Config) (request : Request) (error : error_dict)
  : M response :=
  let client_addr := get_remote_address request in
  let status := status error in
  query_type ← getitem (json request) "query_type";
  location ← getitem (json request) "location";
  target ← getitem (json request) "target";
  count_errors_inc status (get_reason cfg status) client_addr query_type location target ;;
  mret {| body := OutputStatusKeywords (message error) status (keywords error);
          http_status := status |}.

(** Lines 149-153 and 127: the handlers are [async def]s, so a plain call
    builds a coroutine object and runs nothing of the body. *)
Definition handle_missing_call (request : Request) (exception : string) : coroutine :=
  Coroutine handle_missing_h request exception.

Definition handle_ui_errors_call (request : Request) (exception : string) : coroutine :=
  Coroutine handle_ui_errors_h request exception.

(** Lines 187-194. *)
Definition clear_cache : M string :=
  try_except
    (r_cache_flushdb ;; mret "Successfully cleared cache")
    (fun error_exception =>
       raise (HyperglassError ("Error clearing cache: " ++ exn_str error_exception))).

(** [not x] for what GET returns ([None], or a [str] since the client is
    created with [decode_responses]). *)
Definition falsy (r : option string) : bool :=
  match r with
  | None => true
  | Some v => String.eqb v ""
  end.

(** Lines 213-301, the [/query] route. The rate limit of line 212 is checked
    by the framework before the route is entered. Logging is left out. *)
Definition hyperglass_main (cfg : Config) (request : Request) : M response :=
  let lg_data := json request in                                      (* 220 *)
  target ← getitem lg_data "target";                                  (* 224 *)
  when (String.eqb target "")
    (raise_coroutine (handle_missing_call request (no_input cfg))) ;;  (* 226 *)
  location ← getitem lg_data "location";                              (* 229 *)
  when (negb (Py.contains (hostnames cfg) location))
    (raise_coroutine (handle_missing_call request (no_input cfg))) ;;  (* 231 *)
  query_type ← getitem lg_data "query_type";                          (* 234 *)
  when (negb (is_supported_query cfg query_type))
    (raise_coroutine (handle_missing_call request (no_input cfg))) ;;  (* 236 *)
  let client_addr := get_remote_address request in                    (* 239 *)
  count_data_inc client_addr query_type location target ;;            (* 242 *)
  let cache_key := Py.dict_str lg_data in                             (* 251 *)
  let cache_timeout := cache_timeout cfg in                           (* 254 *)
  cached ← r_cache_get cache_key;                                     (* 258 *)
  when (falsy cached)
    (cache_value ←
       try_except (execute_response cfg lg_data)                      (* 264 *)
         (fun backend_error =>
            match backend_error with
            | BackendError _ d => raise (InvalidUsage d)              (* 272 *)
            | _ => raise backend_error
            end);
     when (negb (Py.truthy cache_value))                              (* 277 *)
       (raise_coroutine
          (handle_ui_errors_call request (request_timeout cfg))) ;;   (* 278 *)
     r_cache_set cache_key (Py.str cache_value) ;;                    (* 285 *)
     r_cache_expire cache_key cache_timeout) ;;                       (* 286 *)
  cache_response ← r_cache_get cache_key;                             (* 291 *)
  let response_output := cache_response in                            (* 296 *)
  mret {| body := Output response_output; http_status := 200 |}.      (* 301 *)

(** The application around the route: [@app.exception(InvalidUsage)] has it
    await [handle_ui_errors] on an [InvalidUsage] the route raises; any other
    exception is left to the framework. *)
Definition serve (cfg : Config) (request : Request) : M response :=
  try_except (hyperglass_main cfg request)
    (fun e =>
       match e with
       | InvalidUsage args0 => handle_ui_errors cfg request args0
       | _ => raise e
       end).

(** One run: the environment's [sched] against the world [w]. *)
Definition run {A} (m : M A) (sched : list env_action) (w : World)
  : result A * World * list event :=
  let '(r, s) := m {| world := w; schedule := sched; log := [] |} in
  (r, world s, log s).

(** The key a request is cached under (line 251). *)
Definition cache_key (request : Request) : string := Py.dict_str (json request).

(** The world as the [n]-th suspension point of a run finds it, when the
    run itself leaves the world alone: the first [n] scheduled actions. *)
Fixpoint env_after (n : nat) (sched : list env_action) (w : World) : World :=
  match n, sched with
  | S n', a :: rest => env_after n' rest (apply_env a w)
  | _, _ => w
  end.

(** The counter updates among the calls of a run. *)
Definition is_metric (e : event) : bool :=
  match e with
  | EvCountData _ _ _ _ | EvCountErrors _ _ _ _ _ _ => true
  | _ => false
  end.

Definition metrics (l : list event) : list event := List.filter is_metric l.

(** The updates of the query counter among them. *)
Definition is_count_data (e : event) : bool :=
  match e with
  | EvCountData _ _ _ _ => true
  | _ => false
  end.

(** The backend calls among the calls of a run. *)
Definition is_execute (e : event) : bool :=
  match e with
  | EvExecute _ _ => true
  | _ => false
  end.

(** The request passes the three checks of lines 224-236. *)
Record valid_request (cfg : Config) (request : Request)
    (target location query_type : string) : Prop := {
  has_target : Py.dict_get (json request) "target" = Some target;
  target_given : target <> "";
  has_location : Py.dict_get (json request) "location" = Some location;
  location_known : Py.contains (hostnames cfg) location = true;
  has_query_type : Py.dict_get (json request) "query_type" = Some query_type;
  query_supported : is_supported_query cfg query_type = true;
}.

(** The request has the three fields and fails one of the checks. *)
Inductive invalid_request (cfg : Config) (request : Request) : Prop :=
| missing_target :
    Py.dict_get (json request) "target" = Some "" ->
    invalid_request cfg request
| unknown_location target location :
    Py.dict_get (json request) "target" = Some target -> target <> "" ->
    Py.dict_get (json request) "location" = Some location ->
    Py.contains (hostnames cfg) location = false ->
    invalid_request cfg request
| unsupported_query_type target location query_type :
    Py.dict_get (json request) "target" = Some target -> target <> "" ->
    Py.dict_get (json request) "location" = Some location ->
    Py.contains (hostnames cfg) location = true ->
    Py.dict_get (json request) "query_type" = Some query_type ->
    is_supported_query cfg query_type = false ->
    invalid_request cfg request.

(** ** The runs, written out

    These definitions say what the handlers are proved to do; the proofs
    below relate them to the handlers. *)

(** The state at the [n]-th suspension point of a run that has made the
    database [d] and the calls [l]. *)
Definition point (sched : list env_action) (w : World)
    (n : nat) (d : gmap string entry) (l : list event) : State :=
  {| world := set_db (env_after n sched w) d; schedule := drop n sched; log := l |}.

(** What a run of [hyperglass_main] on a request that passes the checks comes
    to, read off the worlds [env_after 1 .. 5] that its suspension points see. *)
Definition main_outcome (cfg : Config) (request : Request)
    (target location query_type : string) (sched : list env_action) (w : World)
  : result response * World * list event :=
  let lg_data := json request in
  let key := Py.dict_str lg_data in
  let ttl := cache_timeout cfg in
  let counted := EvCountData (remote_addr request) query_type location target in
  let w1 := env_after 1 sched w in
  let w2 := env_after 2 sched w in
  let w3 := env_after 3 sched w in
  let w4 := env_after 4 sched w in
  let w5 := env_after 5 sched w in
  match down w1 with
  | Some msg => (Raise (ConnectionError msg), w1, [counted; EvCacheFailed msg])
  | None =>
    let cached := cache_lookup w1 key in
    if falsy cached then
      let o := Execute cfg (clock w2) lg_data in
      let miss := [counted; EvCacheGet key cached; EvExecute lg_data o] in
      match o with
      | RaisesTyped _ e => (Raise (InvalidUsage e), w2, miss)
      | RaisesOther name => (Raise (OtherError name), w2, miss)
      | Returns v =>
        if Py.truthy v then
          let stored := {| value := Py.str v; expire_at := None |} in
          let expiring := {| value := Py.str v; expire_at := Some (clock w4 + ttl) |} in
          match down w3 with
          | Some msg => (Raise (ConnectionError msg), w3, (miss ++ [EvCacheFailed msg])%list)
          | None =>
            match down w4 with
            | Some msg =>
                (Raise (ConnectionError msg), set_db w4 (<[key := stored]> (db w)),
                 (miss ++ [EvCacheSet key (Py.str v); EvCacheFailed msg])%list)
            | None =>
              let written :=
                (miss ++ [EvCacheSet key (Py.str v); EvCacheExpire key ttl])%list in
              match down w5 with
              | Some msg =>
                  (Raise (ConnectionError msg), set_db w5 (<[key := expiring]> (db w)),
                   (written ++ [EvCacheFailed msg])%list)
              | None =>
                  let fetched :=
                    if clock w5 <? clock w4 + ttl then Some (Py.str v) else None in
                  (Ok {| body := Output fetched; http_status := 200 |},
                   set_db w5 (<[key := expiring]> (db w)),
                   (written ++ [EvCacheGet key fetched])%list)
              end
            end
          end
        else
          (Raise (TypeError_not_an_exception
                    (Coroutine handle_ui_errors_h request (request_timeout cfg))),
           w2, miss)
      end
    else
      match down w2 with
      | Some msg =>
          (Raise (ConnectionError msg), w2,
           [counted; EvCacheGet key cached; EvCacheFailed msg])
      | None =>
          let fetched := cache_lookup w2 key in
          (Ok {| body := Output fetched; http_status := 200 |}, w2,
           [counted; EvCacheGet key cached; EvCacheGet key fetched])
      end
  end.

(** The failure response [handle_ui_errors] builds from the dict [e]. *)
Definition failure_response (e : error_dict) : response :=
  {| body := OutputStatusKeywords (message e) (status e) (keywords e);
     http_status := status e |}.

(** What [serve] makes of the outcome of the route. *)
Definition handled (cfg : Config) (request : Request)
    (target location query_type : string)
    (o : result response * World * list event)
  : result response * World * list event :=
  match o with
  | (Raise (InvalidUsage e), w', l) =>
      (Ok (failure_response e), w',
       (l ++ [EvCountErrors (status e) (get_reason cfg (status e))
                (remote_addr request) query_type location target])%list)
  | _ => o
  end.

Definition serve_outcome (cfg : Config) (request : Request)
    (target location query_type : string) (sched : list env_action) (w : World)
  : result response * World * list event :=
  handled cfg request target location query_type
    (main_outcome cfg request target location query_type sched w).

(** ** A running example: the request of the specification's walk-through *)

Module Sample.

Definition payload : string := "BGP routing table entry for 8.8.8.0/24".

Definition cfg : Config := {|
  hostnames := ["router1"; "router2"];
  is_supported_query := Py.contains ["bgp_route"; "bgp_community"; "bgp_aspath"; "ping"; "traceroute"];
  no_input := "A target must be specified";
  request_timeout := "Request timed out";
  cache_timeout := 120;
  get_reason := fun _ => "error";
  Execute := fun _ _ => Returns (Py.PyStr payload);
|}.

Definition with_backend (f : Z -> Py.dict -> exec_outcome) : Config := {|
  hostnames := hostnames cfg;
  is_supported_query := is_supported_query cfg;
  no_input := no_input cfg;
  request_timeout := request_timeout cfg;
  cache_timeout := cache_timeout cfg;
  get_reason := get_reason cfg;
  Execute := f;
|}.

Definition request : Request := {|
  json := [("target", "8.8.8.8"); ("location", "router1"); ("query_type", "bgp_route")];
  remote_addr := "192.0.2.1";
|}.

Definition key : string := Py.dict_str (json request).

(** Nothing cached, at second 1000. *)
Definition empty_world : World := {| clock := 1000; db := ∅; down := None |}.

(** [key] cached with value [v], expiring at [t]. *)
Definition cached (v : string) (t : option Z) : World :=
  {| clock := 1000; db := {[ key := {| value := v; expire_at := t |} ]}; down := None |}.

(** A typed failure of the backend. *)
Definition auth_failed : error_dict :=
  {| message := "Authentication failed"; status := 501; keywords := ["router1"] |}.

End Sample.

(** ** Sequences of requests, quiet environments, well-formed stores *)

(** The same request served once per schedule, one run after the other on the
    world the run before left. *)
Fixpoint serve_many (cfg : Config) (request : Request)
    (scheds : list (list env_action)) (w : World)
  : list (result response) * World * list event :=
  match scheds with
  | [] => ([], w, [])
  | sched :: rest =>
      let '(r, w', l) := run (serve cfg request) sched w in
      let '(rs, w'', l') := serve_many cfg request rest w' in
      (r :: rs, w'', (l ++ l')%list)
  end.

(** An environment that only lets time pass. *)
Definition is_elapse (a : env_action) : bool :=
  match a with
  | Elapse _ => true
  | _ => false
  end.

Definition quiet (sched : list env_action) : bool := forallb is_elapse sched.

(** The time a schedule lets pass. *)
Fixpoint elapsed (sched : list env_action) : Z :=
  match sched with
  | [] => 0
  | Elapse dt :: rest => Z.of_N dt + elapsed rest
  | _ :: rest => elapsed rest
  end.

Fixpoint elapsed_all (scheds : list (list env_action)) : Z :=
  match scheds with
  | [] => 0
  | sched :: rest => elapsed sched + elapsed_all rest
  end.

(** No key of the database holds the empty text. *)
Definition no_empty_value (d : gmap string entry) : Prop :=
  forall (k : string) (e : entry), d !! k = Some e -> value e <> "".

(** Every character of a text passes the test. *)
Fixpoint all_chars (p : ascii -> bool) (s : string) : bool :=
  match s with
  | "" => true
  | String c s' => p c && all_chars p s'
  end.

(** The SET and EXPIRE commands among the calls of a run. *)
Definition is_cache_write (e : event) : bool :=
  match e with
  | EvCacheSet _ _ | EvCacheExpire _ _ => true
  | _ => false
  end.

(** * Properties *)

(** ** Python text *)

Example repr_plain : Py.repr_str "8.8.8.8" = "'8.8.8.8'".
Proof. reflexivity. Qed.

Example repr_single_quote :
  Py.repr_str "it's" = String Py.dquote ("it's" ++ String Py.dquote "").
Proof. reflexivity. Qed.

Example repr_control : Py.repr_str (String "010" (String "001" "")) = "'\n\x01'".
Proof. reflexivity. Qed.

Example str_tuple :
  Py.str (Py.PyTuple [Py.PyStr "out"; Py.PyInt 200]) = "('out', 200)".
Proof. reflexivity. Qed.

Example str_dict :
  Py.dict_str [("target", "8.8.8.8"); ("location", "router1")]
  = "{'target': '8.8.8.8', 'location': 'router1'}".
Proof. reflexivity. Qed.

Module PyFacts.
Import Py.

#[local] Arguments String.append !_ _ / : simpl nomatch.

Lemma append_assoc (a b c : string) : (a ++ b) ++ c = a ++ (b ++ c).
Proof. induction a as [|x a IH]; simpl; [reflexivity | now rewrite IH]. Qed.

Lemma append_empty_r (a : string) : a ++ "" = a.
Proof. induction a as [|x a IH]; simpl; [reflexivity | now rewrite IH]. Qed.

Lemma append_inv_head (a x y : string) : a ++ x = a ++ y -> x = y.
Proof.
  induction a as [|c a IH]; simpl; intros H; [assumption|].
  injection H as H. now apply IH.
Qed.

Lemma in_all_ascii (c : ascii) : In c all_ascii.
Proof.
  unfold all_ascii. rewrite <- (ascii_nat_embedding c).
  apply in_map, in_seq. pose proof (nat_ascii_bounded c). lia.
Qed.

Lemma forall_ascii (P : ascii -> bool) :
  forallb P all_ascii = true -> forall c, P c = true.
Proof.
  intros H c. rewrite forallb_forall in H. apply H, in_all_ascii.
Qed.

Lemma append_compatible (a b x y : string) :
  a ++ x = b ++ y -> compatible a b = true.
Proof.
  revert b; induction a as [|c a IH]; intros [|d b]; simpl; try reflexivity.
  intros H. injection H as -> H. rewrite Ascii.eqb_refl. simpl. now apply IH.
Qed.

Lemma repr_char_prefix_free (q c c' : ascii) (x y : string) :
  is_quote q ->
  repr_char q c ++ x = repr_char q c' ++ y -> c = c' /\ x = y.
Proof.
  intros Hq H.
  assert (Hpf : prefix_free_at q = true) by (destruct Hq as [-> | ->]; vm_compute; reflexivity).
  pose proof (append_compatible _ _ _ _ H) as Hc.
  unfold prefix_free_at in Hpf.
  pose proof (forall_ascii _ (forall_ascii _ Hpf c) c') as Hi.
  simpl in Hi. rewrite Hc in Hi. simpl in Hi.
  apply Ascii.eqb_eq in Hi. subst c'. split; [reflexivity|].
  now apply append_inv_head in H.
Qed.

Lemma repr_char_not_quote (q c : ascii) (x y : string) :
  is_quote q -> repr_char q c ++ x <> String q y.
Proof.
  intros Hq H.
  assert (Hall : quote_free_at q = true)
    by (destruct Hq as [-> | ->]; vm_compute; reflexivity).
  pose proof (forall_ascii _ Hall c) as Hc. simpl in Hc.
  destruct (repr_char q c) as [|d r]; [discriminate|].
  simpl in H. injection H as -> _. now rewrite Ascii.eqb_refl in Hc.
Qed.

(** The body of a literal ends at the first quote that is not escaped. *)
Lemma repr_body_delimited (q : ascii) (a b r1 r2 : string) :
  is_quote q ->
  repr_body q a ++ String q r1 = repr_body q b ++ String q r2 ->
  a = b /\ r1 = r2.
Proof.
  intros Hq. revert b.
  induction a as [|c a IH]; intros [|d b]; cbn [repr_body]; intros H.
  - injection H as ->. now split.
  - symmetry in H. rewrite append_assoc in H. now apply repr_char_not_quote in H.
  - rewrite append_assoc in H. now apply repr_char_not_quote in H.
  - rewrite !append_assoc in H.
    apply repr_char_prefix_free in H as [-> H]; [|assumption].
    apply IH in H as [-> ->]. now split.
Qed.

Lemma repr_quote_is_quote (s : string) : is_quote (repr_quote s).
Proof. unfold repr_quote, is_quote. destruct (_ && _); auto. Qed.

(** [repr] of a text is self-delimiting. *)
Lemma repr_str_delimited (a b r1 r2 : string) :
  repr_str a ++ r1 = repr_str b ++ r2 -> a = b /\ r1 = r2.
Proof.
  unfold repr_str. simpl. intros H. injection H as Hq H.
  rewrite <- Hq in H. rewrite !append_assoc in H. simpl in H.
  eapply repr_body_delimited; [apply repr_quote_is_quote | exact H].
Qed.

Lemma repr_str_inj (a b : string) : repr_str a = repr_str b -> a = b.
Proof.
  intros H. apply (repr_str_delimited a b "" ""). now rewrite H.
Qed.

Lemma repr_item_delimited (kv kv' : string * string) (r1 r2 : string) :
  repr_item kv ++ r1 = repr_item kv' ++ r2 -> kv = kv' /\ r1 = r2.
Proof.
  destruct kv as [k v], kv' as [k' v']. unfold repr_item. cbn [fst snd].
  rewrite !append_assoc. intros H.
  apply repr_str_delimited in H as [-> H]. apply append_inv_head in H.
  apply repr_str_delimited in H as [-> ->]. now split.
Qed.

Lemma repr_item_head (kv : string * string) (r : string) :
  exists q t, is_quote q /\ repr_item kv ++ r = String q t.
Proof.
  destruct kv as [k v]. unfold repr_item, repr_str. simpl.
  eexists _, _. split; [apply repr_quote_is_quote | reflexivity].
Qed.

(** The items of a dict between the braces, up to the closing brace. *)
Lemma items_delimited (d1 d2 : dict) :
  String.concat ", " (map repr_item d1) ++ "}"
  = String.concat ", " (map repr_item d2) ++ "}" -> d1 = d2.
Proof.
  assert (Hhead : forall kv r, repr_item kv ++ r <> "}").
  { intros kv r H. destruct (repr_item_head kv r) as (q & t & Hq & E).
    rewrite E in H. injection H as -> _. destruct Hq; discriminate. }
  assert (Hcons : forall kv d, String.concat ", " (map repr_item (kv :: d))
                   = repr_item kv ++ match d with
                                     | [] => ""
                                     | _ => ", " ++ String.concat ", " (map repr_item d)
                                     end).
  { intros kv [|kv' d]; cbn [map String.concat];
      [now rewrite append_empty_r | reflexivity]. }
  revert d2. induction d1 as [|kv d1 IH]; intros [|kv' d2].
  - reflexivity.
  - rewrite Hcons, append_assoc. simpl. intros H. symmetry in H. now apply Hhead in H.
  - rewrite Hcons, append_assoc. simpl. intros H. now apply Hhead in H.
  - rewrite !Hcons, !append_assoc. intros H.
    apply repr_item_delimited in H as [-> H]. f_equal.
    destruct d1 as [|x d1], d2 as [|y d2].
    + reflexivity.
    + simpl in H. discriminate.
    + simpl in H. discriminate.
    + rewrite !append_assoc in H. simpl in H. injection H as H. now apply IH.
Qed.

Lemma dict_str_inj (d1 d2 : dict) : dict_str d1 = dict_str d2 -> d1 = d2.
Proof.
  unfold dict_str. simpl. intros H. injection H as H. now apply items_delimited.
Qed.

End PyFacts.

(** ** Runs of the handlers, one suspension point after the other *)

Lemma world_eta (w : World) : set_db w (db w) = w.
Proof. now destruct w. Qed.

Lemma apply_env_set_db (a : env_action) (w : World) (d : gmap string entry) :
  apply_env a (set_db w d) = set_db (apply_env a w) d.
Proof. now destruct a. Qed.

Lemma db_apply_env (a : env_action) (w : World) : db (apply_env a w) = db w.
Proof. now destruct a. Qed.

Lemma db_env_after (n : nat) (sched : list env_action) (w : World) :
  db (env_after n sched w) = db w.
Proof.
  revert sched w. induction n as [|n IH]; intros [|a sched] w; simpl; try reflexivity.
  now rewrite IH, db_apply_env.
Qed.

Lemma set_db_env_after (n : nat) (sched : list env_action) (w : World) :
  set_db (env_after n sched w) (db w) = env_after n sched w.
Proof. rewrite <- (db_env_after n sched w) at 1. apply world_eta. Qed.

Lemma clock_apply_env (a : env_action) (w : World) : clock w <= clock (apply_env a w).
Proof. destruct a; simpl; lia. Qed.

Lemma env_after_S (n : nat) (sched : list env_action) (w : World) :
  env_after (S n) sched w
  = match drop n sched with
    | a :: _ => apply_env a (env_after n sched w)
    | [] => env_after n sched w
    end.
Proof.
  revert sched w. induction n as [|n IH]; intros [|a sched] w; try reflexivity.
  change (env_after (S (S n)) (a :: sched) w) with (env_after (S n) sched (apply_env a w)).
  now rewrite IH.
Qed.

Lemma clock_env_after_S (n : nat) (sched : list env_action) (w : World) :
  clock (env_after n sched w) <= clock (env_after (S n) sched w).
Proof.
  rewrite env_after_S. destruct (drop n sched); [lia | apply clock_apply_env].
Qed.

Lemma clock_env_after_le (n m : nat) (sched : list env_action) (w : World) :
  (n <= m)%nat -> clock (env_after n sched w) <= clock (env_after m sched w).
Proof.
  induction 1 as [|m _ IH]; [lia|].
  pose proof (clock_env_after_S m sched w). lia.
Qed.

Lemma drop_S_tail {A} (n : nat) (l : list A) :
  drop (S n) l = match drop n l with _ :: r => r | [] => [] end.
Proof.
  revert l. induction n as [|n IH]; intros [|x l]; try reflexivity.
  apply (IH l).
Qed.

Section Points.

Context (cfg : Config) (sched : list env_action) (w : World).

#[local] Abbreviation point := (point sched w).

Lemma run_from_start {A} (m : M A) :
  run m sched w = let '(r, s) := m (point 0 (db w) []) in (r, world s, log s).
Proof. unfold run, point. simpl. now rewrite world_eta. Qed.

Lemma suspend_point n d l : suspend (point n d l) = (Ok tt, point (S n) d l).
Proof.
  unfold suspend, point. cbn [schedule world log].
  rewrite env_after_S, drop_S_tail.
  destruct (drop n sched) as [|a rest]; [reflexivity|].
  now rewrite apply_env_set_db.
Qed.

Lemma emit_point e n d l : emit e (point n d l) = (Ok tt, point n d (l ++ [e])).
Proof. reflexivity. Qed.

Lemma redis_command_point {A} (f : World -> M A) n d l :
  redis_command f (point n d l)
  = match down (env_after (S n) sched w) with
    | Some msg => (Raise (ConnectionError msg), point (S n) d (l ++ [EvCacheFailed msg]))
    | None => f (set_db (env_after (S n) sched w) d) (point (S n) d l)
    end.
Proof.
  unfold redis_command, mbind, M_bind. rewrite suspend_point.
  unfold get_world. cbn [world point set_db down].
  destruct (down (env_after (S n) sched w)); reflexivity.
Qed.

Lemma r_cache_get_point k n d l :
  r_cache_get k (point n d l)
  = match down (env_after (S n) sched w) with
    | Some msg => (Raise (ConnectionError msg), point (S n) d (l ++ [EvCacheFailed msg]))
    | None =>
        let r := cache_lookup (set_db (env_after (S n) sched w) d) k in
        (Ok r, point (S n) d (l ++ [EvCacheGet k r]))
    end.
Proof. unfold r_cache_get. rewrite redis_command_point. reflexivity. Qed.

Lemma r_cache_set_point k v n d l :
  r_cache_set k v (point n d l)
  = match down (env_after (S n) sched w) with
    | Some msg => (Raise (ConnectionError msg), point (S n) d (l ++ [EvCacheFailed msg]))
    | None =>
        (Ok tt, point (S n) (<[k := {| value := v; expire_at := None |}]> d)
                  (l ++ [EvCacheSet k v]))
    end.
Proof. unfold r_cache_set. rewrite redis_command_point. reflexivity. Qed.

Lemma r_cache_expire_point k ttl n d l :
  r_cache_expire k ttl (point n d l)
  = match down (env_after (S n) sched w) with
    | Some msg => (Raise (ConnectionError msg), point (S n) d (l ++ [EvCacheFailed msg]))
    | None =>
        (Ok tt, point (S n) (db (cache_expire (set_db (env_after (S n) sched w) d) k ttl))
                  (l ++ [EvCacheExpire k ttl]))
    end.
Proof. unfold r_cache_expire. rewrite redis_command_point. reflexivity. Qed.

Lemma r_cache_flushdb_point n d l :
  r_cache_flushdb (point n d l)
  = match down (env_after (S n) sched w) with
    | Some msg => (Raise (ConnectionError msg), point (S n) d (l ++ [EvCacheFailed msg]))
    | None => (Ok tt, point (S n) ∅ (l ++ [EvCacheFlush]))
    end.
Proof. unfold r_cache_flushdb. rewrite redis_command_point. reflexivity. Qed.

Lemma execute_response_point lg_data n d l :
  execute_response cfg lg_data (point n d l)
  = let o := Execute cfg (clock (env_after (S n) sched w)) lg_data in
    let s := point (S n) d (l ++ [EvExecute lg_data o]) in
    match o with
    | Returns v => (Ok v, s)
    | RaisesTyped k e => (Raise (BackendError k e), s)
    | RaisesOther name => (Raise (OtherError name), s)
    end.
Proof.
  unfold execute_response, mbind, M_bind. rewrite suspend_point.
  unfold get_world. cbn [world point set_db clock].
  destruct (Execute cfg (clock (env_after (S n) sched w)) lg_data); reflexivity.
Qed.

End Points.

Lemma expire_after_store (w : World) (d : gmap string entry) (k v : string) (ttl : Z) :
  db (cache_expire (set_db w (<[k := {| value := v; expire_at := None |}]> d)) k ttl)
  = <[k := {| value := v; expire_at := Some (clock w + ttl) |}]> d.
Proof.
  unfold cache_expire, set_db. cbn [db clock].
  rewrite lookup_insert_eq. cbn [live expire_at value].
  apply insert_insert_eq.
Qed.

Lemma lookup_expiring (w : World) (d : gmap string entry) (k v : string) (t : Z) :
  cache_lookup (set_db w (<[k := {| value := v; expire_at := Some t |}]> d)) k
  = if clock w <? t then Some v else None.
Proof.
  unfold cache_lookup, set_db. cbn [db clock].
  now rewrite lookup_insert_eq.
Qed.

Section Outcome.

Context (cfg : Config) (request : Request) (target location query_type : string).
Context (sched : list env_action) (w : World).

#[local] Abbreviation main_outcome :=
  (main_outcome cfg request target location query_type sched w).
#[local] Abbreviation serve_outcome :=
  (serve_outcome cfg request target location query_type sched w).
#[local] Abbreviation handled := (handled cfg request target location query_type).

Ltac step := cbv beta iota; cbn [negb].
Ltac finish :=
  cbn [world log point app fst snd]; rewrite ?set_db_env_after; reflexivity.

Lemma hyperglass_main_valid :
  valid_request cfg request target location query_type ->
  run (hyperglass_main cfg request) sched w = main_outcome.
Proof.
  intros [Ht Hne Hl Hk Hq Hs].
  apply String.eqb_neq in Hne.
  rewrite run_from_start.
  unfold hyperglass_main, getitem.
  unfold when, count_data_inc, try_except, raise_coroutine, raise.
  unfold mbind, M_bind, mret, M_ret.
  rewrite Ht. step. rewrite Hne. step.
  rewrite Hl. step. rewrite Hk. step.
  rewrite Hq. step. rewrite Hs. step.
  rewrite emit_point. step.
  rewrite r_cache_get_point, set_db_env_after.
  unfold main_outcome. cbv zeta.
  destruct (down (env_after 1 sched w)) as [msg|]; [finish|]. step.
  destruct (falsy (cache_lookup (env_after 1 sched w) (Py.dict_str (json request)))).
  - rewrite execute_response_point. cbv zeta.
    destruct (Execute cfg (clock (env_after 2 sched w)) (json request)) as [v|k e|name];
      step; [|finish|finish].
    destruct (Py.truthy v); step; [|finish].
    rewrite r_cache_set_point.
    destruct (down (env_after 3 sched w)) as [msg|]; [finish|]. step.
    rewrite r_cache_expire_point.
    destruct (down (env_after 4 sched w)) as [msg|]; [finish|]. step.
    rewrite expire_after_store, r_cache_get_point, lookup_expiring.
    destruct (down (env_after 5 sched w)) as [msg|]; finish.
  - rewrite r_cache_get_point, set_db_env_after.
    destruct (down (env_after 2 sched w)) as [msg|]; finish.
Qed.

Lemma handle_ui_errors_valid (e : error_dict) (s : State) :
  valid_request cfg request target location query_type ->
  handle_ui_errors cfg request e s
  = (Ok (failure_response e),
     {| world := world s; schedule := schedule s;
        log := log s ++ [EvCountErrors (status e) (get_reason cfg (status e))
                           (remote_addr request) query_type location target] |}).
Proof.
  intros [Ht _ Hl _ Hq _].
  unfold handle_ui_errors, getitem. rewrite Ht, Hl, Hq. reflexivity.
Qed.

Lemma serve_valid :
  valid_request cfg request target location query_type ->
  run (serve cfg request) sched w = serve_outcome.
Proof.
  intros Hv. unfold serve_outcome.
  rewrite <- (hyperglass_main_valid Hv).
  unfold run, serve, try_except.
  destruct (hyperglass_main cfg request _) as [[a|e] s]; [reflexivity|].
  destruct e; try reflexivity.
  rewrite (handle_ui_errors_valid _ _ Hv). reflexivity.
Qed.

End Outcome.

(** A request that fails a check never gets past line 236. *)
Lemma hyperglass_main_invalid (cfg : Config) (request : Request) (s : State) :
  invalid_request cfg request ->
  hyperglass_main cfg request s
  = (Raise (TypeError_not_an_exception
              (Coroutine handle_missing_h request (no_input cfg))), s).
Proof.
  intros [Ht | t l Ht Hne Hl Hk | t l q Ht Hne Hl Hk Hq Hs];
    unfold hyperglass_main, getitem, when, raise_coroutine, raise, mbind, M_bind, mret, M_ret;
    rewrite Ht; cbv beta iota; [reflexivity| |];
    apply String.eqb_neq in Hne; rewrite Hne; cbv beta iota;
    rewrite Hl; cbv beta iota; rewrite Hk; cbn [negb]; cbv beta iota; [reflexivity|].
  rewrite Hq. cbv beta iota. rewrite Hs. reflexivity.
Qed.

(** ** The running example passes the checks, whatever the backend *)

Lemma sample_valid (f : Z -> Py.dict -> exec_outcome) :
  valid_request (Sample.with_backend f) Sample.request "8.8.8.8" "router1" "bgp_route".
Proof. split; (reflexivity || discriminate). Qed.

(** ** Validation (lines 224-236) *)

(** C2. A request with an empty target, an unknown location or an unsupported
    query type never reaches the cache, the backend or the counters; but what
    it fails with is the [TypeError] of raising the coroutine object that
    [handle_missing(request, params.messages.no_input)] returns, not an error
    that carries the no-input message. *)
Theorem C2_invalid_request_never_reaches_cache
    (cfg : Config) (request : Request) (sched : list env_action) (w : World) :
  invalid_request cfg request ->
  run (serve cfg request) sched w
  = (Raise (TypeError_not_an_exception
              (Coroutine handle_missing_h request (no_input cfg))), w, []).
Proof.
  intros Hi. unfold run, serve, try_except.
  rewrite hyperglass_main_invalid by assumption. reflexivity.
Qed.

Lemma C2_empty_target_witness :
  run (serve Sample.cfg
         {| json := [("target", ""); ("location", "router1"); ("query_type", "bgp_route")];
            remote_addr := "192.0.2.1" |})
      [] Sample.empty_world
  = (Raise (TypeError_not_an_exception
              (Coroutine handle_missing_h
                 {| json := [("target", ""); ("location", "router1");
                             ("query_type", "bgp_route")];
                    remote_addr := "192.0.2.1" |}
                 "A target must be specified")),
     Sample.empty_world, []).
Proof.
  apply (C2_invalid_request_never_reaches_cache Sample.cfg).
  apply missing_target. reflexivity.
Defined.

(** ** Backend failures (lines 263-278) *)

(** C3. On a miss, a backend that returns a falsy value makes the handler
    raise, with nothing written to the cache; but the exception is the
    [TypeError] of raising the coroutine object that
    [handle_ui_errors(request, params.messages.request_timeout)] returns, so
    no request-timeout response is built. *)
Theorem C3_empty_result_writes_no_entry
    (cfg : Config) (request : Request) (target location query_type : string)
    (sched : list env_action) (w : World) (v : Py.pyval) :
  valid_request cfg request target location query_type ->
  let w1 := env_after 1 sched w in
  let w2 := env_after 2 sched w in
  down w1 = None ->
  falsy (cache_lookup w1 (cache_key request)) = true ->
  Execute cfg (clock w2) (json request) = Returns v ->
  Py.truthy v = false ->
  run (serve cfg request) sched w
  = (Raise (TypeError_not_an_exception
              (Coroutine handle_ui_errors_h request (request_timeout cfg))),
     w2,
     [EvCountData (remote_addr request) query_type location target;
      EvCacheGet (cache_key request) (cache_lookup w1 (cache_key request));
      EvExecute (json request) (Returns v)])
  /\ db w2 = db w.
Proof.
  intros Hv w1 w2 Hup Hmiss Hexec Hfalsy. split; [|apply db_env_after].
  rewrite (serve_valid cfg request target location query_type sched w Hv).
  unfold serve_outcome, main_outcome.
  cbv zeta. fold w1 w2. unfold cache_key in Hmiss.
  rewrite Hup, Hmiss, Hexec, Hfalsy. reflexivity.
Qed.

Lemma C3_empty_string_witness :
  run (serve (Sample.with_backend (fun _ _ => Returns (Py.PyStr ""))) Sample.request)
      [] Sample.empty_world
  = (Raise (TypeError_not_an_exception
              (Coroutine handle_ui_errors_h Sample.request "Request timed out")),
     Sample.empty_world,
     [EvCountData "192.0.2.1" "bgp_route" "router1" "8.8.8.8";
      EvCacheGet Sample.key None;
      EvExecute (json Sample.request) (Returns (Py.PyStr ""))])
  /\ db Sample.empty_world = db Sample.empty_world.
Proof.
  apply (C3_empty_result_writes_no_entry
           (Sample.with_backend (fun _ _ => Returns (Py.PyStr ""))) Sample.request
           "8.8.8.8" "router1" "bgp_route" [] Sample.empty_world (Py.PyStr ""));
    [apply sample_valid | reflexivity ..].
Defined.

(** C4. On a miss, a typed failure of the backend comes back as the response
    [{output: message, status: code, keywords: [...]}] with the failure's own
    message, status and keywords, sent with that status, and nothing is
    written to the cache. *)
Theorem C4_typed_backend_failure_response
    (cfg : Config) (request : Request) (target location query_type : string)
    (sched : list env_action) (w : World) (k : backend_error) (e : error_dict) :
  valid_request cfg request target location query_type ->
  let w1 := env_after 1 sched w in
  let w2 := env_after 2 sched w in
  down w1 = None ->
  falsy (cache_lookup w1 (cache_key request)) = true ->
  Execute cfg (clock w2) (json request) = RaisesTyped k e ->
  run (serve cfg request) sched w
  = (Ok {| body := OutputStatusKeywords (message e) (status e) (keywords e);
           http_status := status e |},
     w2,
     [EvCountData (remote_addr request) query_type location target;
      EvCacheGet (cache_key request) (cache_lookup w1 (cache_key request));
      EvExecute (json request) (RaisesTyped k e);
      EvCountErrors (status e) (get_reason cfg (status e))
        (remote_addr request) query_type location target])
  /\ db w2 = db w.
Proof.
  intros Hv w1 w2 Hup Hmiss Hexec. split; [|apply db_env_after].
  rewrite (serve_valid cfg request target location query_type sched w Hv).
  unfold serve_outcome, main_outcome.
  cbv zeta. fold w1 w2. unfold cache_key in Hmiss.
  rewrite Hup, Hmiss, Hexec. reflexivity.
Qed.

Lemma C4_auth_error_witness :
  run (serve (Sample.with_backend (fun _ _ => RaisesTyped AuthError Sample.auth_failed))
         Sample.request)
      [] Sample.empty_world
  = (Ok {| body := OutputStatusKeywords "Authentication failed" 501 ["router1"];
           http_status := 501 |},
     Sample.empty_world,
     [EvCountData "192.0.2.1" "bgp_route" "router1" "8.8.8.8";
      EvCacheGet Sample.key None;
      EvExecute (json Sample.request) (RaisesTyped AuthError Sample.auth_failed);
      EvCountErrors 501 "error" "192.0.2.1" "bgp_route" "router1" "8.8.8.8"])
  /\ db Sample.empty_world = db Sample.empty_world.
Proof.
  apply (C4_typed_backend_failure_response
           (Sample.with_backend (fun _ _ => RaisesTyped AuthError Sample.auth_failed))
           Sample.request "8.8.8.8" "router1" "bgp_route" [] Sample.empty_world
           AuthError Sample.auth_failed);
    [apply sample_valid | reflexivity ..].
Defined.

(** ** The cache (lines 251-301) *)

Lemma truthy_str_nonempty (v : Py.pyval) : Py.truthy v = true -> Py.str v <> "".
Proof.
  destruct v as [|b|z|s|l]; simpl; intros H.
  - discriminate.
  - now subst b.
  - destruct z as [|p|p]; [discriminate| |discriminate].
    cbn. pose proof (DecimalPos.Unsigned.to_uint_nonnil p) as Hp.
    destruct (Pos.to_uint p); [congruence | discriminate ..].
  - apply negb_true_iff, String.eqb_neq in H. exact H.
  - destruct l as [|a [|b l]]; discriminate.
Qed.

Lemma env_after_set_db (n : nat) (sched : list env_action) (w : World)
    (d : gmap string entry) :
  env_after n sched (set_db w d) = set_db (env_after n sched w) d.
Proof.
  revert sched w. induction n as [|n IH]; intros [|a sched] w; try reflexivity.
  cbn [env_after]. now rewrite apply_env_set_db, IH.
Qed.

Lemma falsy_nonempty (v : string) : v <> "" -> falsy (Some v) = false.
Proof. intros H. now apply String.eqb_neq. Qed.

(** Case analysis along the branches of [main_outcome] in [H]. *)
Ltac split_outcome H :=
  repeat (match type of H with
          | context [match down ?x with _ => _ end] => destruct (down x) eqn:?
          | context [if falsy ?x then _ else _] => destruct (falsy x) eqn:?
          | context [match Execute ?c ?t ?d with _ => _ end] =>
              destruct (Execute c t d) eqn:?
          | context [if Py.truthy ?x then _ else _] => destruct (Py.truthy x) eqn:?
          end; cbv beta iota in H).

(** The runs of [serve] that answer from the backend: the value was truthy,
    every cache command went through, and the entry was left expiring
    [cache_timeout] after the EXPIRE. *)
Lemma served_from_backend
    (cfg : Config) (request : Request) (target location query_type : string)
    (sched : list env_action) (w : World)
    (resp : response) (w' : World) (l : list event) (v : Py.pyval) :
  valid_request cfg request target location query_type ->
  run (serve cfg request) sched w = (Ok resp, w', l) ->
  In (EvExecute (json request) (Returns v)) l ->
  Py.truthy v = true
  /\ down (env_after 5 sched w) = None
  /\ w' = set_db (env_after 5 sched w)
            (<[cache_key request :=
                 {| value := Py.str v;
                    expire_at := Some (clock (env_after 4 sched w) + cache_timeout cfg) |}]>
               (db w)).
Proof.
  intros Hv Hrun Hin.
  rewrite (serve_valid cfg request target location query_type sched w Hv) in Hrun.
  unfold serve_outcome, main_outcome, handled in Hrun. cbv zeta in Hrun.
  split_outcome Hrun;
    try discriminate; injection Hrun as <- <- <-;
    cbn [In app] in Hin;
    repeat (destruct Hin as [Hin|Hin]; [try discriminate|]); try contradiction;
    try (injection Hin as <-); auto.
Qed.

(** C1 (as amended). When the key holds a non-empty value at the presence
    check (line 258) and still holds it at the value fetch (line 291), the
    response is that value with status 200 and the backend is not called: the
    run makes the counter update and the two GETs, nothing else. And once a
    request has been answered from the backend with [v], an identical request
    whose value fetch comes less than [cache_timeout] after the EXPIRE of the
    first gets [str(v)] from the cache, again without a backend call. *)
Theorem C1_cache_hit_returns_cached_value
    (cfg : Config) (request : Request) (target location query_type : string) :
  valid_request cfg request target location query_type ->
  let counted := EvCountData (remote_addr request) query_type location target in
  let key := cache_key request in
  (forall (sched : list env_action) (w : World) (v : string),
     let w1 := env_after 1 sched w in
     let w2 := env_after 2 sched w in
     down w1 = None -> cache_lookup w1 key = Some v -> v <> "" ->
     down w2 = None -> cache_lookup w2 key = Some v ->
     run (serve cfg request) sched w
     = (Ok {| body := Output (Some v); http_status := 200 |}, w2,
        [counted; EvCacheGet key (Some v); EvCacheGet key (Some v)]))
  /\
  (forall (sched1 sched2 : list env_action) (w0 w1 : World)
          (resp1 : response) (log1 : list event) (v : Py.pyval),
     run (serve cfg request) sched1 w0 = (Ok resp1, w1, log1) ->
     In (EvExecute (json request) (Returns v)) log1 ->
     let wa := env_after 1 sched2 w1 in
     let wb := env_after 2 sched2 w1 in
     down wa = None -> down wb = None ->
     clock wb < clock (env_after 4 sched1 w0) + cache_timeout cfg ->
     run (serve cfg request) sched2 w1
     = (Ok {| body := Output (Some (Py.str v)); http_status := 200 |}, wb,
        [counted; EvCacheGet key (Some (Py.str v)); EvCacheGet key (Some (Py.str v))])).
Proof.
  intros Hv counted key. split.
  - intros sched w v w1 w2 Hup1 Hhit Hne Hup2 Hstill.
    rewrite (serve_valid cfg request target location query_type sched w Hv).
    unfold serve_outcome, main_outcome. cbv zeta. fold w1 w2 key counted.
    unfold key, cache_key in Hhit, Hstill.
    rewrite Hup1, Hhit, (falsy_nonempty v Hne), Hup2, Hstill. reflexivity.
  - intros sched1 sched2 w0 w1 resp1 log1 v Hrun Hin wa wb Hupa Hupb Hfresh.
    destruct (served_from_backend cfg request target location query_type
                sched1 w0 resp1 w1 log1 v Hv Hrun Hin) as (Htruthy & _ & Hw1).
    pose proof (truthy_str_nonempty v Htruthy) as Hne.
    pose proof (clock_env_after_le 1 2 sched2 (env_after 5 sched1 w0) ltac:(lia)) as Hmono.
    subst wa wb w1.
    rewrite (serve_valid cfg request target location query_type sched2 _ Hv).
    unfold serve_outcome, main_outcome. cbv zeta. fold key counted.
    rewrite !env_after_set_db in *. rewrite !lookup_expiring.
    cbn [down clock set_db] in *. rewrite Hupa, Hupb.
    set (t := clock (env_after 4 sched1 w0) + cache_timeout cfg) in *.
    destruct (Z.ltb_spec (clock (env_after 1 sched2 (env_after 5 sched1 w0))) t); [|lia].
    destruct (Z.ltb_spec (clock (env_after 2 sched2 (env_after 5 sched1 w0))) t); [|lia].
    rewrite (falsy_nonempty _ Hne). reflexivity.
Qed.

Lemma C1_hit_witness :
  run (serve Sample.cfg Sample.request) [Elapse 3; Elapse 4]
      (Sample.cached "cached answer" (Some 1100))
  = (Ok {| body := Output (Some "cached answer"); http_status := 200 |},
     env_after 2 [Elapse 3; Elapse 4] (Sample.cached "cached answer" (Some 1100)),
     [EvCountData "192.0.2.1" "bgp_route" "router1" "8.8.8.8";
      EvCacheGet Sample.key (Some "cached answer");
      EvCacheGet Sample.key (Some "cached answer")])
  /\
  run (serve Sample.cfg Sample.request) [Elapse 60; Elapse 1]
      (snd (fst (run (serve Sample.cfg Sample.request) [] Sample.empty_world)))
  = (Ok {| body := Output (Some Sample.payload); http_status := 200 |},
     env_after 2 [Elapse 60; Elapse 1]
       (snd (fst (run (serve Sample.cfg Sample.request) [] Sample.empty_world))),
     [EvCountData "192.0.2.1" "bgp_route" "router1" "8.8.8.8";
      EvCacheGet Sample.key (Some Sample.payload);
      EvCacheGet Sample.key (Some Sample.payload)]).
Proof.
  pose proof (C1_cache_hit_returns_cached_value Sample.cfg Sample.request
                "8.8.8.8" "router1" "bgp_route" (sample_valid _)) as [Hhit Hsecond].
  split.
  - apply (Hhit [Elapse 3; Elapse 4] (Sample.cached "cached answer" (Some 1100))
             "cached answer");
      [reflexivity | reflexivity | discriminate | reflexivity | reflexivity].
  - apply (Hsecond [] [Elapse 60; Elapse 1] Sample.empty_world _
             {| body := Output (Some Sample.payload); http_status := 200 |}
             [EvCountData "192.0.2.1" "bgp_route" "router1" "8.8.8.8";
              EvCacheGet Sample.key None;
              EvExecute (json Sample.request) (Returns (Py.PyStr Sample.payload));
              EvCacheSet Sample.key Sample.payload;
              EvCacheExpire Sample.key 120;
              EvCacheGet Sample.key (Some Sample.payload)]
             (Py.PyStr Sample.payload));
      [reflexivity | simpl; tauto | reflexivity | reflexivity | reflexivity].
Defined.

(** Counterexample to C1 as stated. It fails for a key that holds the empty text:
    the key is there and has no expiry, yet line 258 takes it for a miss, the
    backend is called and its answer, not the cached value, is returned. It
    also fails for a key that expires between the two GETs: the cached value
    is there at the presence check and the output is null. *)
Lemma C1_empty_cached_value_counterexample :
  valid_request Sample.cfg Sample.request "8.8.8.8" "router1" "bgp_route"
  /\ (cache_lookup (Sample.cached "" None) (cache_key Sample.request) = Some ""
      /\ fst (fst (run (serve Sample.cfg Sample.request) [] (Sample.cached "" None)))
         = Ok {| body := Output (Some Sample.payload); http_status := 200 |}
      /\ List.filter is_execute
           (snd (run (serve Sample.cfg Sample.request) [] (Sample.cached "" None)))
         = [EvExecute (json Sample.request) (Returns (Py.PyStr Sample.payload))])
  /\ (cache_lookup (env_after 1 [Elapse 2; Elapse 9] (Sample.cached "old answer" (Some 1010)))
        (cache_key Sample.request) = Some "old answer"
      /\ fst (fst (run (serve Sample.cfg Sample.request) [Elapse 2; Elapse 9]
                     (Sample.cached "old answer" (Some 1010))))
         = Ok {| body := Output None; http_status := 200 |}).
Proof.
  split; [apply (sample_valid (Execute Sample.cfg))|].
  repeat split; reflexivity.
Qed.

Ltac split_goal :=
  repeat (match goal with
          | |- context [match down ?x with _ => _ end] => destruct (down x) eqn:?
          | |- context [if falsy ?x then _ else _] => destruct (falsy x) eqn:?
          | |- context [match Execute ?c ?t ?d with _ => _ end] =>
              destruct (Execute c t d) eqn:?
          | |- context [if Py.truthy ?x then _ else _] => destruct (Py.truthy x) eqn:?
          end; cbv beta iota).

(** C5. On a miss answered by the backend with a truthy [v], with the cache
    in reach for the three commands that follow, the run is: SET of [str(v)]
    under the request's key, EXPIRE with [cache_timeout], the final GET, and
    then the 200 response. The entry is left expiring [cache_timeout] after
    the EXPIRE; from that time on the key reads as absent, and an identical
    request that reads the cache then calls the backend again. *)
Theorem C5_miss_writes_through_with_ttl
    (cfg : Config) (request : Request) (target location query_type : string)
    (sched : list env_action) (w : World) (v : Py.pyval) :
  valid_request cfg request target location query_type ->
  let key := cache_key request in
  let ttl := cache_timeout cfg in
  let w1 := env_after 1 sched w in
  let w2 := env_after 2 sched w in
  let w3 := env_after 3 sched w in
  let w4 := env_after 4 sched w in
  let w5 := env_after 5 sched w in
  down w1 = None ->
  falsy (cache_lookup w1 key) = true ->
  Execute cfg (clock w2) (json request) = Returns v ->
  Py.truthy v = true ->
  down w3 = None -> down w4 = None -> down w5 = None ->
  exists (fetched : option string) (w' : World),
    run (serve cfg request) sched w
    = (Ok {| body := Output fetched; http_status := 200 |}, w',
       [EvCountData (remote_addr request) query_type location target;
        EvCacheGet key (cache_lookup w1 key);
        EvExecute (json request) (Returns v);
        EvCacheSet key (Py.str v);
        EvCacheExpire key ttl;
        EvCacheGet key fetched])
    /\ db w' !! key = Some {| value := Py.str v; expire_at := Some (clock w4 + ttl) |}
    /\ (forall (n : nat) (sched' : list env_action),
          clock w4 + ttl <= clock (env_after n sched' w') ->
          cache_lookup (env_after n sched' w') key = None)
    /\ (forall sched' : list env_action,
          down (env_after 1 sched' w') = None ->
          clock w4 + ttl <= clock (env_after 1 sched' w') ->
          In (EvExecute (json request)
                (Execute cfg (clock (env_after 2 sched' w')) (json request)))
             (snd (run (serve cfg request) sched' w'))).
Proof.
  intros Hv key ttl w1 w2 w3 w4 w5 Hup1 Hmiss Hexec Htruthy Hup3 Hup4 Hup5.
  unfold cache_key in key. subst key ttl w1 w2 w3 w4 w5.
  set (key := Py.dict_str (json request)) in *.
  set (kept := {| value := Py.str v;
                  expire_at := Some (clock (env_after 4 sched w) + cache_timeout cfg) |}).
  set (w' := set_db (env_after 5 sched w) (<[key := kept]> (db w))).
  assert (Hgone : forall n sched',
             clock (env_after 4 sched w) + cache_timeout cfg
             <= clock (env_after n sched' w') ->
             cache_lookup (env_after n sched' w') key = None).
  { intros n sched'. unfold w', kept. rewrite env_after_set_db, lookup_expiring.
    cbn [clock set_db]. intros Hlate.
    destruct (Z.ltb_spec (clock (env_after n sched' (env_after 5 sched w)))
                (clock (env_after 4 sched w) + cache_timeout cfg));
      [lia | reflexivity]. }
  eexists _, w'. repeat split.
  - rewrite (serve_valid cfg request target location query_type sched w Hv).
    unfold serve_outcome, main_outcome. cbv zeta. fold key.
    rewrite Hup1, Hmiss, Hexec, Htruthy, Hup3, Hup4, Hup5. reflexivity.
  - unfold w'. cbn [db set_db]. apply lookup_insert_eq.
  - exact Hgone.
  - intros sched' Hup Hlate.
    rewrite (serve_valid cfg request target location query_type sched' _ Hv).
    unfold serve_outcome, main_outcome. cbv zeta. fold key.
    rewrite Hup, (Hgone 1%nat sched' Hlate). cbn [falsy].
    split_goal; cbn; auto 10.
Qed.

Lemma C5_write_through_witness :
  exists (fetched : option string) (w' : World),
    run (serve Sample.cfg Sample.request) [] Sample.empty_world
    = (Ok {| body := Output fetched; http_status := 200 |}, w',
       [EvCountData "192.0.2.1" "bgp_route" "router1" "8.8.8.8";
        EvCacheGet Sample.key None;
        EvExecute (json Sample.request) (Returns (Py.PyStr Sample.payload));
        EvCacheSet Sample.key Sample.payload;
        EvCacheExpire Sample.key 120;
        EvCacheGet Sample.key fetched])
    /\ db w' !! Sample.key = Some {| value := Sample.payload; expire_at := Some 1120 |}
    /\ (forall (n : nat) (sched' : list env_action),
          1120 <= clock (env_after n sched' w') ->
          cache_lookup (env_after n sched' w') Sample.key = None)
    /\ (forall sched' : list env_action,
          down (env_after 1 sched' w') = None ->
          1120 <= clock (env_after 1 sched' w') ->
          In (EvExecute (json Sample.request)
                (Execute Sample.cfg (clock (env_after 2 sched' w')) (json Sample.request)))
             (snd (run (serve Sample.cfg Sample.request) sched' w'))).
Proof.
  apply (C5_miss_writes_through_with_ttl Sample.cfg Sample.request
           "8.8.8.8" "router1" "bgp_route" [] Sample.empty_world
           (Py.PyStr Sample.payload));
    [apply (sample_valid (Execute Sample.cfg)) | reflexivity ..].
Defined.

(** ** The cache key (line 251) *)

(** Counterexample to C6 as stated: the same three fields in another
    order give another key. *)
Lemma C6_field_order_counterexample :
  let d1 := [("target", "8.8.8.8"); ("location", "router1"); ("query_type", "bgp_route")] in
  let d2 := [("location", "router1"); ("query_type", "bgp_route"); ("target", "8.8.8.8")] in
  let r1 := {| json := d1; remote_addr := "192.0.2.1" |} in
  let r2 := {| json := d2; remote_addr := "192.0.2.1" |} in
  Py.dict_get d1 "target" = Py.dict_get d2 "target"
  /\ Py.dict_get d1 "location" = Py.dict_get d2 "location"
  /\ Py.dict_get d1 "query_type" = Py.dict_get d2 "query_type"
  /\ cache_key r1 <> cache_key r2.
Proof. repeat split; try reflexivity. discriminate. Qed.

(** C6 (as amended). The key is a function of the fields of the request in
    the order they have in its body: two requests with the same fields in the
    same order have the same key, and two requests with the same key have the
    same fields in the same order. *)
Theorem C6_cache_key_determines_ordered_fields (r1 r2 : Request) :
  cache_key r1 = cache_key r2 <-> json r1 = json r2.
Proof.
  unfold cache_key. split.
  - apply PyFacts.dict_str_inj.
  - now intros ->.
Qed.

(** ** Cache failures *)

Lemma clear_cache_unreachable (sched : list env_action) (w : World) (msg : string) :
  down (env_after 1 sched w) = Some msg ->
  run clear_cache sched w
  = (Raise (HyperglassError ("Error clearing cache: " ++ msg)),
     env_after 1 sched w, [EvCacheFailed msg]).
Proof.
  intros Hdown. rewrite run_from_start.
  unfold clear_cache, try_except, mbind, M_bind.
  rewrite r_cache_flushdb_point, Hdown. cbv beta iota.
  unfold raise. cbn [exn_str world log point app fst snd].
  now rewrite set_db_env_after.
Qed.

(** Counterexample to C7 as stated: with the cache out of reach at the
    read of line 258 the handler raises [ConnectionError]; the backend is
    not called. *)
Lemma C7_unreachable_cache_counterexample :
  let w := {| clock := 1000; db := ∅; down := Some "Connection refused" |} in
  valid_request Sample.cfg Sample.request "8.8.8.8" "router1" "bgp_route"
  /\ run (serve Sample.cfg Sample.request) [] w
     = (Raise (ConnectionError "Connection refused"), w,
        [EvCountData "192.0.2.1" "bgp_route" "router1" "8.8.8.8";
         EvCacheFailed "Connection refused"]).
Proof. split; [apply (sample_valid (Execute Sample.cfg)) | reflexivity]. Qed.

(** C7 (as amended). A cache that is out of reach at the read of line 258
    is not taken for a miss: the [ConnectionError] leaves the handler, and
    the backend is not called. [clear_cache] hands a failure of the flush to
    its caller as a [HyperglassError] with the failure's text. *)
Theorem C7_cache_read_failure_propagates
    (cfg : Config) (request : Request) (target location query_type : string)
    (sched : list env_action) (w : World) (msg : string) :
  valid_request cfg request target location query_type ->
  down (env_after 1 sched w) = Some msg ->
  run (serve cfg request) sched w
  = (Raise (ConnectionError msg), env_after 1 sched w,
     [EvCountData (remote_addr request) query_type location target;
      EvCacheFailed msg])
  /\ run clear_cache sched w
     = (Raise (HyperglassError ("Error clearing cache: " ++ msg)),
        env_after 1 sched w, [EvCacheFailed msg]).
Proof.
  intros Hv Hdown. split; [|now apply clear_cache_unreachable].
  rewrite (serve_valid cfg request target location query_type sched w Hv).
  unfold serve_outcome, main_outcome. cbv zeta. now rewrite Hdown.
Qed.

Lemma C7_disconnect_witness :
  run (serve Sample.cfg Sample.request) [Disconnect "Connection refused"] Sample.empty_world
  = (Raise (ConnectionError "Connection refused"),
     env_after 1 [Disconnect "Connection refused"] Sample.empty_world,
     [EvCountData "192.0.2.1" "bgp_route" "router1" "8.8.8.8";
      EvCacheFailed "Connection refused"])
  /\ run clear_cache [Disconnect "Connection refused"] Sample.empty_world
     = (Raise (HyperglassError "Error clearing cache: Connection refused"),
        env_after 1 [Disconnect "Connection refused"] Sample.empty_world,
        [EvCacheFailed "Connection refused"]).
Proof.
  apply (C7_cache_read_failure_propagates Sample.cfg Sample.request
           "8.8.8.8" "router1" "bgp_route");
    [apply (sample_valid (Execute Sample.cfg)) | reflexivity].
Defined.

(** ** Counters (lines 242-244 and 134-141) *)

(** Counterexample to C8 as stated: a request that ends in a typed
    backend failure makes two counter updates, and a request that fails a
    check makes none. *)
Lemma C8_two_or_no_updates_counterexample :
  metrics (snd (run (serve (Sample.with_backend (fun _ _ => RaisesTyped AuthError Sample.auth_failed))
                      Sample.request) [] Sample.empty_world))
  = [EvCountData "192.0.2.1" "bgp_route" "router1" "8.8.8.8";
     EvCountErrors 501 "error" "192.0.2.1" "bgp_route" "router1" "8.8.8.8"]
  /\ metrics (snd (run (serve Sample.cfg
                          {| json := [("target", ""); ("location", "router1");
                                      ("query_type", "bgp_route")];
                             remote_addr := "192.0.2.1" |}) [] Sample.empty_world))
     = [].
Proof. split; reflexivity. Qed.

(** C8 (as amended). Every request that passes the checks makes exactly one
    update of the query counter, labelled with the client address, the query
    type, the location and the target, however the request ends. A request
    that ends in the failure response built from a typed backend failure
    makes one update of the error counter on top of it, labelled with the
    status, its reason and the same four labels: two updates in all. A
    request that ends in a success response makes no other update. *)
Theorem C8_counter_updates_of_a_request
    (cfg : Config) (request : Request) (target location query_type : string)
    (sched : list env_action) (w : World) :
  valid_request cfg request target location query_type ->
  let outcome := fst (fst (run (serve cfg request) sched w)) in
  let calls := snd (run (serve cfg request) sched w) in
  let counted := EvCountData (remote_addr request) query_type location target in
  List.filter is_count_data calls = [counted]
  /\ (forall e : error_dict,
        outcome = Ok {| body := OutputStatusKeywords (message e) (status e) (keywords e);
                        http_status := status e |} ->
        metrics calls
        = [counted;
           EvCountErrors (status e) (get_reason cfg (status e))
             (remote_addr request) query_type location target])
  /\ (forall fetched : option string,
        outcome = Ok {| body := Output fetched; http_status := 200 |} ->
        metrics calls = [counted]).
Proof.
  intros Hv outcome calls counted. subst outcome calls counted.
  rewrite (serve_valid cfg request target location query_type sched w Hv).
  unfold serve_outcome, main_outcome, handled, failure_response. cbv zeta.
  split_goal; cbn [fst snd]; (split; [reflexivity|split]);
    intros x Hx;
    first [discriminate Hx | reflexivity | inversion Hx; cbn; congruence].
Qed.

Lemma C8_counted_witness :
  let ok := run (serve Sample.cfg Sample.request) [] Sample.empty_world in
  let failed :=
    run (serve (Sample.with_backend (fun _ _ => RaisesTyped AuthError Sample.auth_failed))
           Sample.request) [] Sample.empty_world in
  let counted := EvCountData "192.0.2.1" "bgp_route" "router1" "8.8.8.8" in
  metrics (snd ok) = [counted]
  /\ metrics (snd failed)
     = [counted; EvCountErrors 501 "error" "192.0.2.1" "bgp_route" "router1" "8.8.8.8"].
Proof.
  split.
  - apply (C8_counter_updates_of_a_request Sample.cfg Sample.request
             "8.8.8.8" "router1" "bgp_route" [] Sample.empty_world
             (sample_valid (Execute Sample.cfg)))
      with (fetched := Some Sample.payload).
    reflexivity.
  - apply (C8_counter_updates_of_a_request
             (Sample.with_backend (fun _ _ => RaisesTyped AuthError Sample.auth_failed))
             Sample.request "8.8.8.8" "router1" "bgp_route" [] Sample.empty_world
             (sample_valid _))
      with (e := Sample.auth_failed).
    reflexivity.
Defined.

(** ** The final read (lines 291-301) *)

Lemma hyperglass_main_returns_valid
    (cfg : Config) (request : Request) (s s' : State) (resp : response) :
  hyperglass_main cfg request s = (Ok resp, s') ->
  exists target location query_type,
    valid_request cfg request target location query_type.
Proof.
  unfold hyperglass_main, getitem, when, raise_coroutine, raise, mbind, M_bind, mret, M_ret.
  destruct (Py.dict_get (json request) "target") as [t|] eqn:Ht; [|discriminate].
  cbv beta iota.
  destruct (String.eqb_spec t "") as [->|Hne]; [discriminate|]. cbv beta iota.
  destruct (Py.dict_get (json request) "location") as [l|] eqn:Hl; [|discriminate].
  cbv beta iota.
  destruct (Py.contains (hostnames cfg) l) eqn:Hk; [|discriminate]. cbn [negb]. cbv beta iota.
  destruct (Py.dict_get (json request) "query_type") as [q|] eqn:Hq; [|discriminate].
  cbv beta iota.
  destruct (is_supported_query cfg q) eqn:Hs; [|discriminate].
  intros _. exists t, l, q. now split.
Qed.

(** C9. Whenever [hyperglass_main] returns a response, the last call of the
    run is a GET on the request's key, and the output of the response is
    what that GET returned. In particular, on a miss answered by the backend
    with a truthy [v], with the cache in reach and the final GET made before
    the entry expires, what is stored and what is returned is [str(v)]. *)
Theorem C9_output_is_read_back_from_cache (cfg : Config) (request : Request) :
  (forall (sched : list env_action) (w w' : World) (resp : response) (l : list event),
     run (hyperglass_main cfg request) sched w = (Ok resp, w', l) ->
     exists (calls : list event) (fetched : option string),
       l = (calls ++ [EvCacheGet (cache_key request) fetched])%list
       /\ resp = {| body := Output fetched; http_status := 200 |})
  /\
  (forall (target location query_type : string)
          (sched : list env_action) (w : World) (v : Py.pyval),
     valid_request cfg request target location query_type ->
     let key := cache_key request in
     let w1 := env_after 1 sched w in
     let w2 := env_after 2 sched w in
     let w3 := env_after 3 sched w in
     let w4 := env_after 4 sched w in
     let w5 := env_after 5 sched w in
     down w1 = None ->
     falsy (cache_lookup w1 key) = true ->
     Execute cfg (clock w2) (json request) = Returns v ->
     Py.truthy v = true ->
     down w3 = None -> down w4 = None -> down w5 = None ->
     clock w5 < clock w4 + cache_timeout cfg ->
     exists w' : World,
       run (hyperglass_main cfg request) sched w
       = (Ok {| body := Output (Some (Py.str v)); http_status := 200 |}, w',
          [EvCountData (remote_addr request) query_type location target;
           EvCacheGet key (cache_lookup w1 key);
           EvExecute (json request) (Returns v);
           EvCacheSet key (Py.str v);
           EvCacheExpire key (cache_timeout cfg);
           EvCacheGet key (Some (Py.str v))])).
Proof.
  split.
  - intros sched w w' resp l Hrun.
    assert (Hv : exists t lo q, valid_request cfg request t lo q).
    { unfold run in Hrun.
      destruct (hyperglass_main cfg request _) as [r s] eqn:Hm.
      injection Hrun as -> _ _. eapply hyperglass_main_returns_valid, Hm. }
    destruct Hv as (t & lo & q & Hv).
    rewrite (hyperglass_main_valid cfg request t lo q sched w Hv) in Hrun.
    unfold main_outcome, cache_key in *. cbv zeta in Hrun.
    split_outcome Hrun; try discriminate; injection Hrun as <- <- <-;
      first [ eexists [_; _; _; _; _], _; split; reflexivity
            | eexists [_; _], _; split; reflexivity ].
  - intros t lo q sched w v Hv key w1 w2 w3 w4 w5
      Hup1 Hmiss Hexec Htruthy Hup3 Hup4 Hup5 Hfresh.
    unfold cache_key in key. subst key w1 w2 w3 w4 w5.
    rewrite (hyperglass_main_valid cfg request t lo q sched w Hv).
    unfold main_outcome. cbv zeta.
    rewrite Hup1, Hmiss, Hexec, Htruthy, Hup3, Hup4, Hup5.
    apply Z.ltb_lt in Hfresh. rewrite Hfresh.
    eexists. reflexivity.
Qed.

Lemma C9_tuple_payload_witness :
  exists w' : World,
    run (hyperglass_main
           (Sample.with_backend
              (fun _ _ => Returns (Py.PyTuple [Py.PyStr "routes"; Py.PyInt 200])))
           Sample.request)
        [] Sample.empty_world
    = (Ok {| body := Output (Some "('routes', 200)"); http_status := 200 |}, w',
       [EvCountData "192.0.2.1" "bgp_route" "router1" "8.8.8.8";
        EvCacheGet Sample.key None;
        EvExecute (json Sample.request)
          (Returns (Py.PyTuple [Py.PyStr "routes"; Py.PyInt 200]));
        EvCacheSet Sample.key "('routes', 200)";
        EvCacheExpire Sample.key 120;
        EvCacheGet Sample.key (Some "('routes', 200)")]).
Proof.
  apply (proj2 (C9_output_is_read_back_from_cache
                  (Sample.with_backend
                     (fun _ _ => Returns (Py.PyTuple [Py.PyStr "routes"; Py.PyInt 200])))
                  Sample.request)
           "8.8.8.8" "router1" "bgp_route" [] Sample.empty_world
           (Py.PyTuple [Py.PyStr "routes"; Py.PyInt 200]));
    [apply sample_valid | reflexivity ..].
Defined.

(** C10. Nothing checks what the final GET returned: when the key holds a
    non-empty value at the presence check and is gone at the value fetch (it
    expired in between, say), the backend is not called and the response is
    status 200 with a null output. *)
Theorem C10_entry_gone_at_fetch_gives_null_output
    (cfg : Config) (request : Request) (target location query_type : string)
    (sched : list env_action) (w : World) (v : string) :
  valid_request cfg request target location query_type ->
  let key := cache_key request in
  let w1 := env_after 1 sched w in
  let w2 := env_after 2 sched w in
  down w1 = None -> cache_lookup w1 key = Some v -> v <> "" ->
  down w2 = None -> cache_lookup w2 key = None ->
  run (serve cfg request) sched w
  = (Ok {| body := Output None; http_status := 200 |}, w2,
     [EvCountData (remote_addr request) query_type location target;
      EvCacheGet key (Some v);
      EvCacheGet key None]).
Proof.
  intros Hv key w1 w2 Hup1 Hhit Hne Hup2 Hgone.
  unfold cache_key in key. subst key w1 w2.
  rewrite (serve_valid cfg request target location query_type sched w Hv).
  unfold serve_outcome, main_outcome. cbv zeta.
  rewrite Hup1, Hhit, (falsy_nonempty v Hne), Hup2, Hgone. reflexivity.
Qed.

Lemma C10_expiry_race_witness :
  run (serve Sample.cfg Sample.request) [Elapse 5; Elapse 10]
      (Sample.cached "cached answer" (Some 1010))
  = (Ok {| body := Output None; http_status := 200 |},
     env_after 2 [Elapse 5; Elapse 10] (Sample.cached "cached answer" (Some 1010)),
     [EvCountData "192.0.2.1" "bgp_route" "router1" "8.8.8.8";
      EvCacheGet Sample.key (Some "cached answer");
      EvCacheGet Sample.key None]).
Proof.
  apply (C10_entry_gone_at_fetch_gives_null_output Sample.cfg Sample.request
           "8.8.8.8" "router1" "bgp_route" [Elapse 5; Elapse 10]
           (Sample.cached "cached answer" (Some 1010)) "cached answer");
    [apply (sample_valid (Execute Sample.cfg)) | reflexivity | reflexivity
     | discriminate | reflexivity | reflexivity].
Defined.

(** ** The administrative flush (lines 187-194) *)

(** With the cache in reach, [clear_cache] reports success and leaves the
    database empty: whatever the environment does afterwards, every key reads
    as absent, and a request that passes the checks and reads the cache then
    calls the backend, whatever was cached before. *)
Theorem clear_cache_then_every_request_misses
    (cfg : Config) (request : Request) (target location query_type : string)
    (sched : list env_action) (w : World) :
  valid_request cfg request target location query_type ->
  down (env_after 1 sched w) = None ->
  let w' := set_db (env_after 1 sched w) ∅ in
  run clear_cache sched w = (Ok "Successfully cleared cache", w', [EvCacheFlush])
  /\ (forall (n : nat) (sched' : list env_action) (k : string),
        cache_lookup (env_after n sched' w') k = None)
  /\ (forall sched' : list env_action,
        down (env_after 1 sched' w') = None ->
        In (EvExecute (json request)
              (Execute cfg (clock (env_after 2 sched' w')) (json request)))
           (snd (run (serve cfg request) sched' w'))).
Proof.
  intros Hv Hup w'.
  assert (Hgone : forall n sched' k, cache_lookup (env_after n sched' w') k = None).
  { intros n sched' k. unfold w'. rewrite env_after_set_db.
    unfold cache_lookup, set_db. cbn [db]. now rewrite lookup_empty. }
  repeat split.
  - rewrite run_from_start. unfold clear_cache, try_except, mbind, M_bind.
    rewrite r_cache_flushdb_point, Hup. reflexivity.
  - exact Hgone.
  - intros sched' Hup'.
    rewrite (serve_valid cfg request target location query_type sched' _ Hv).
    unfold serve_outcome, main_outcome. cbv zeta.
    rewrite Hup', (Hgone 1%nat sched'). cbn [falsy].
    split_goal; cbn; auto 10.
Qed.

Lemma clear_cache_witness :
  let w' := set_db (env_after 1 [] (Sample.cached "old answer" None)) ∅ in
  run clear_cache [] (Sample.cached "old answer" None)
  = (Ok "Successfully cleared cache", w', [EvCacheFlush])
  /\ (forall (n : nat) (sched' : list env_action) (k : string),
        cache_lookup (env_after n sched' w') k = None)
  /\ (forall sched' : list env_action,
        down (env_after 1 sched' w') = None ->
        In (EvExecute (json Sample.request)
              (Execute Sample.cfg (clock (env_after 2 sched' w')) (json Sample.request)))
           (snd (run (serve Sample.cfg Sample.request) sched' w'))).
Proof.
  apply (clear_cache_then_every_request_misses Sample.cfg Sample.request
           "8.8.8.8" "router1" "bgp_route" [] (Sample.cached "old answer" None));
    [apply (sample_valid (Execute Sample.cfg)) | reflexivity].
Defined.

(** ** Requests that lack a field *)

(** A body without one of the three fields makes the route raise [KeyError]
    at the first subscript that misses it (lines 224, 229, 234), ahead of the
    check of that field; nothing is counted, read or dispatched. *)
Theorem missing_field_raises_key_error
    (cfg : Config) (request : Request) (sched : list env_action) (w : World) :
  (Py.dict_get (json request) "target" = None ->
   run (serve cfg request) sched w = (Raise (KeyError "target"), w, []))
  /\ (forall target : string,
        Py.dict_get (json request) "target" = Some target -> target <> "" ->
        Py.dict_get (json request) "location" = None ->
        run (serve cfg request) sched w = (Raise (KeyError "location"), w, []))
  /\ (forall target location : string,
        Py.dict_get (json request) "target" = Some target -> target <> "" ->
        Py.dict_get (json request) "location" = Some location ->
        Py.contains (hostnames cfg) location = true ->
        Py.dict_get (json request) "query_type" = None ->
        run (serve cfg request) sched w = (Raise (KeyError "query_type"), w, [])).
Proof.
  repeat split.
  - intros Ht. unfold run, serve, try_except, hyperglass_main, getitem, mbind, M_bind, raise.
    rewrite Ht. reflexivity.
  - intros t Ht Hne Hl. apply String.eqb_neq in Hne.
    unfold run, serve, try_except, hyperglass_main, getitem, when, mbind, M_bind, mret,
      M_ret, raise.
    rewrite Ht. cbv beta iota. rewrite Hne. cbv beta iota. rewrite Hl. reflexivity.
  - intros t l Ht Hne Hl Hk Hq. apply String.eqb_neq in Hne.
    unfold run, serve, try_except, hyperglass_main, getitem, when, mbind, M_bind, mret,
      M_ret, raise.
    rewrite Ht. cbv beta iota. rewrite Hne. cbv beta iota. rewrite Hl. cbv beta iota.
    rewrite Hk. cbn [negb]. cbv beta iota. rewrite Hq. reflexivity.
Qed.

Lemma missing_field_witness :
  run (serve Sample.cfg
         {| json := [("target", "8.8.8.8"); ("query_type", "bgp_route")];
            remote_addr := "192.0.2.1" |}) [] Sample.empty_world
  = (Raise (KeyError "location"), Sample.empty_world, []).
Proof.
  apply (proj1 (proj2 (missing_field_raises_key_error Sample.cfg
                         {| json := [("target", "8.8.8.8"); ("query_type", "bgp_route")];
                            remote_addr := "192.0.2.1" |} [] Sample.empty_world))
           "8.8.8.8");
    [reflexivity | discriminate | reflexivity].
Defined.

(** * Further properties of the route *)

(** Every request either passes the three checks or makes the route raise
    before it counts, reads or dispatches anything. *)
Lemma serve_cases (cfg : Config) (request : Request) :
  (exists target location query_type,
      valid_request cfg request target location query_type)
  \/ (exists e : exn,
        forall (sched : list env_action) (w : World),
          run (serve cfg request) sched w = (Raise e, w, [])).
Proof.
  assert (Hearly : forall e,
             (forall s, hyperglass_main cfg request s = (Raise e, s)) ->
             (forall d, e <> InvalidUsage d) ->
             forall sched w, run (serve cfg request) sched w = (Raise e, w, [])).
  { intros e He Hne sched w. unfold run, serve, try_except. rewrite He.
    destruct e; try reflexivity. now destruct (Hne args0). }
  destruct (Py.dict_get (json request) "target") as [t|] eqn:Ht.
  2:{ right. exists (KeyError "target"). apply Hearly; [|discriminate].
      intros s. unfold hyperglass_main, getitem, mbind, M_bind, raise.
      now rewrite Ht. }
  destruct (String.eqb_spec t "") as [->|Hne].
  { right.
    exists (TypeError_not_an_exception (Coroutine handle_missing_h request (no_input cfg))).
    apply Hearly; [|discriminate].
    intros s. apply hyperglass_main_invalid. now apply missing_target. }
  destruct (Py.dict_get (json request) "location") as [l|] eqn:Hl.
  2:{ right. exists (KeyError "location"). apply Hearly; [|discriminate].
      intros s. apply String.eqb_neq in Hne.
      unfold hyperglass_main, getitem, when, mbind, M_bind, mret, M_ret, raise.
      rewrite Ht. cbv beta iota. rewrite Hne. cbv beta iota. now rewrite Hl. }
  destruct (Py.contains (hostnames cfg) l) eqn:Hk.
  2:{ right.
    exists (TypeError_not_an_exception (Coroutine handle_missing_h request (no_input cfg))).
    apply Hearly; [|discriminate].
      intros s. apply hyperglass_main_invalid.
      now apply (unknown_location cfg request t l). }
  destruct (Py.dict_get (json request) "query_type") as [q|] eqn:Hq.
  2:{ right. exists (KeyError "query_type"). apply Hearly; [|discriminate].
      intros s. apply String.eqb_neq in Hne.
      unfold hyperglass_main, getitem, when, mbind, M_bind, mret, M_ret, raise.
      rewrite Ht. cbv beta iota. rewrite Hne. cbv beta iota. rewrite Hl. cbv beta iota.
      rewrite Hk. cbn [negb]. cbv beta iota. now rewrite Hq. }
  destruct (is_supported_query cfg q) eqn:Hs.
  - left. exists t, l, q. now split.
  - right.
    exists (TypeError_not_an_exception (Coroutine handle_missing_h request (no_input cfg))).
    apply Hearly; [|discriminate].
    intros s. apply hyperglass_main_invalid.
    now apply (unsupported_query_type cfg request t l q).
Qed.

(** What a run can do to the database: nothing, or one entry under the key of
    the request, holding the text of a truthy answer of the backend. *)
Lemma serve_db_written
    (cfg : Config) (request : Request) (sched : list env_action) (w : World) :
  let w' := snd (fst (run (serve cfg request) sched w)) in
  db w' = db w
  \/ exists (v : Py.pyval) (stamp : option Z),
       Py.truthy v = true
       /\ db w' = <[cache_key request := {| value := Py.str v; expire_at := stamp |}]> (db w).
Proof.
  destruct (serve_cases cfg request) as [(t & l & q & Hv) | (e & He)].
  - rewrite (serve_valid cfg request t l q sched w Hv).
    unfold serve_outcome, main_outcome, handled, cache_key. cbv zeta.
    split_goal; cbn [fst snd db set_db]; rewrite ?db_env_after; eauto.
  - rewrite He. now left.
Qed.

(** ** What a run leaves alone *)

(** A run of the route touches no key of the database but the key of its own
    request, however it ends. In particular a request with other fields, or
    with the same fields in another order, keeps what was cached for it. *)
Theorem serve_touches_only_its_own_key
    (cfg : Config) (request : Request) (sched : list env_action) (w : World) :
  let w' := snd (fst (run (serve cfg request) sched w)) in
  (forall k : string, k <> cache_key request -> db w' !! k = db w !! k)
  /\ (forall other : Request,
        json other <> json request ->
        db w' !! cache_key other = db w !! cache_key other).
Proof.
  intros w'.
  assert (Hframe : forall k, k <> cache_key request -> db w' !! k = db w !! k).
  { intros k Hk. subst w'.
    destruct (serve_db_written cfg request sched w) as [-> | (v & stamp & _ & ->)];
      [reflexivity | now apply lookup_insert_ne]. }
  split; [exact Hframe|].
  intros other Hother. apply Hframe. intros Heq. apply Hother.
  now apply PyFacts.dict_str_inj.
Qed.

(** ** What a run stores *)

(** The route never stores the empty text: a database without empty values
    has none after a run, whatever the request, the environment and the
    backend do. Every entry it wrote is therefore a hit for as long as it
    lives, by the test of line 258. *)
Theorem serve_never_stores_empty_value
    (cfg : Config) (request : Request) (sched : list env_action) (w : World) :
  no_empty_value (db w) ->
  no_empty_value (db (snd (fst (run (serve cfg request) sched w)))).
Proof.
  intros Hw k e.
  destruct (serve_db_written cfg request sched w) as [-> | (v & stamp & Hv & ->)];
    [apply Hw|].
  destruct (decide (cache_key request = k)) as [<- | Hk].
  - rewrite lookup_insert_eq. intros [= <-]. now apply truthy_str_nonempty.
  - rewrite lookup_insert_ne by assumption. apply Hw.
Qed.

Lemma serve_never_stores_empty_value_witness :
  no_empty_value
    (db (snd (fst (run (serve Sample.cfg Sample.request) [Elapse 1]
                     (Sample.cached "old answer" (Some 1000)))))).
Proof.
  apply (serve_never_stores_empty_value Sample.cfg Sample.request [Elapse 1]
           (Sample.cached "old answer" (Some 1000))).
  intros k e. unfold Sample.cached. cbn [db].
  intros H. apply lookup_singleton_Some in H as [_ <-]. discriminate.
Defined.

(** ** No retry *)

(** A run calls the backend at most once, with the fields of the request as
    they came, and only after a GET that went through and returned nothing
    or the empty text; a request that passes the checks and meets such a GET
    does call it. The run writes to the cache at most once: a SET of the text
    of a truthy answer, followed by the EXPIRE unless the connection is lost
    in between. *)
Theorem serve_asks_backend_at_most_once
    (cfg : Config) (request : Request) (sched : list env_action) (w : World) :
  let calls := snd (run (serve cfg request) sched w) in
  let key := cache_key request in
  let w1 := env_after 1 sched w in
  let answer := Execute cfg (clock (env_after 2 sched w)) (json request) in
  (List.filter is_execute calls = []
   \/ (List.filter is_execute calls = [EvExecute (json request) answer]
       /\ down w1 = None /\ falsy (cache_lookup w1 key) = true))
  /\ (forall target location query_type : string,
        valid_request cfg request target location query_type ->
        down w1 = None -> falsy (cache_lookup w1 key) = true ->
        List.filter is_execute calls = [EvExecute (json request) answer])
  /\ (List.filter is_cache_write calls = []
      \/ exists v : Py.pyval,
           answer = Returns v /\ Py.truthy v = true
           /\ (List.filter is_cache_write calls = [EvCacheSet key (Py.str v)]
               \/ List.filter is_cache_write calls
                  = [EvCacheSet key (Py.str v); EvCacheExpire key (cache_timeout cfg)])).
Proof.
  intros calls key w1 answer. subst calls key w1 answer. unfold cache_key.
  split; [|split].
  - destruct (serve_cases cfg request) as [(t & l & q & Hv) | (e & He)].
    + rewrite (serve_valid cfg request t l q sched w Hv).
      unfold serve_outcome, main_outcome, handled. cbv zeta.
      split_goal; cbn; first [now left | right; repeat split; reflexivity].
    + rewrite He. now left.
  - intros t l q Hv Hup Hmiss.
    rewrite (serve_valid cfg request t l q sched w Hv).
    unfold serve_outcome, main_outcome, handled. cbv zeta.
    rewrite Hup, Hmiss. split_goal; reflexivity.
  - destruct (serve_cases cfg request) as [(t & l & q & Hv) | (e & He)].
    + rewrite (serve_valid cfg request t l q sched w Hv).
      unfold serve_outcome, main_outcome, handled. cbv zeta.
      split_goal; cbn; first [now left | right; eexists; repeat split; eauto].
    + rewrite He. now left.
Qed.

(** ** The responses of the route *)

(** Whatever the request, a run that ends in a response ends in one of two:
    the output of the final GET with status 200, or the failure response of
    a typed backend failure, whose status is both in the body and the status
    of the response; the second only when the backend raised that failure on
    this very request, and then nothing was written to the cache. *)
Theorem serve_responds_in_two_shapes
    (cfg : Config) (request : Request) (sched : list env_action) (w w' : World)
    (resp : response) (l : list event) :
  run (serve cfg request) sched w = (Ok resp, w', l) ->
  (exists fetched : option string,
      resp = {| body := Output fetched; http_status := 200 |}
      /\ List.filter is_execute l
         = (if falsy (cache_lookup (env_after 1 sched w) (cache_key request))
            then [EvExecute (json request)
                    (Execute cfg (clock (env_after 2 sched w)) (json request))]
            else []))
  \/ (exists (k : backend_error) (e : error_dict),
        resp = {| body := OutputStatusKeywords (message e) (status e) (keywords e);
                  http_status := status e |}
        /\ Execute cfg (clock (env_after 2 sched w)) (json request) = RaisesTyped k e
        /\ db w' = db w
        /\ List.filter is_cache_write l = []).
Proof.
  intros Hrun.
  destruct (serve_cases cfg request) as [(t & lo & q & Hv) | (e & He)];
    [|rewrite He in Hrun; discriminate].
  rewrite (serve_valid cfg request t lo q sched w Hv) in Hrun.
  unfold serve_outcome, main_outcome, handled, failure_response, cache_key in *.
  cbv zeta in Hrun.
  split_outcome Hrun; try discriminate; injection Hrun as <- <- <-;
    first [ left; eexists; split; [reflexivity|];
            repeat match goal with H : falsy _ = _ |- _ => rewrite H end; reflexivity
          | right; do 2 eexists; repeat split; try reflexivity;
            exact (db_env_after 2 sched w) ].
Qed.

Lemma serve_responds_witness :
  (exists fetched : option string,
      {| body := Output (Some Sample.payload); http_status := 200 |}
      = {| body := Output fetched; http_status := 200 |}
      /\ List.filter is_execute
           (snd (run (serve Sample.cfg Sample.request) [] Sample.empty_world))
         = (if falsy (cache_lookup (env_after 1 [] Sample.empty_world)
                        (cache_key Sample.request))
            then [EvExecute (json Sample.request)
                    (Execute Sample.cfg (clock (env_after 2 [] Sample.empty_world))
                       (json Sample.request))]
            else []))
  \/ (exists (k : backend_error) (e : error_dict),
        {| body := Output (Some Sample.payload); http_status := 200 |}
        = {| body := OutputStatusKeywords (message e) (status e) (keywords e);
             http_status := status e |}
        /\ Execute Sample.cfg (clock (env_after 2 [] Sample.empty_world))
             (json Sample.request) = RaisesTyped k e
        /\ db (snd (fst (run (serve Sample.cfg Sample.request) [] Sample.empty_world)))
           = db Sample.empty_world
        /\ List.filter is_cache_write
             (snd (run (serve Sample.cfg Sample.request) [] Sample.empty_world)) = []).
Proof.
  apply (serve_responds_in_two_shapes Sample.cfg Sample.request [] Sample.empty_world
           (snd (fst (run (serve Sample.cfg Sample.request) [] Sample.empty_world)))
           {| body := Output (Some Sample.payload); http_status := 200 |}
           (snd (run (serve Sample.cfg Sample.request) [] Sample.empty_world))).
  reflexivity.
Defined.

(** ** SET and EXPIRE are two commands *)

Lemma lookup_stored (w : World) (d : gmap string entry) (k v : string) :
  cache_lookup (set_db w (<[k := {| value := v; expire_at := None |}]> d)) k = Some v.
Proof.
  unfold cache_lookup, set_db. cbn [db clock]. now rewrite lookup_insert_eq.
Qed.

(** When the connection is lost after the SET of line 285 and before the
    EXPIRE of line 286, the request fails and the entry stays without an
    expiry: it reads as present at every later time, and every later
    identical request that reaches the cache is answered with it, without a
    backend call, however long after. *)
Theorem lost_expire_leaves_entry_without_expiry
    (cfg : Config) (request : Request) (target location query_type : string)
    (sched : list env_action) (w : World) (v : Py.pyval) (msg : string) :
  valid_request cfg request target location query_type ->
  let key := cache_key request in
  let counted := EvCountData (remote_addr request) query_type location target in
  let w1 := env_after 1 sched w in
  let w2 := env_after 2 sched w in
  let w3 := env_after 3 sched w in
  let w4 := env_after 4 sched w in
  down w1 = None ->
  falsy (cache_lookup w1 key) = true ->
  Execute cfg (clock w2) (json request) = Returns v ->
  Py.truthy v = true ->
  down w3 = None ->
  down w4 = Some msg ->
  exists w' : World,
    run (serve cfg request) sched w
    = (Raise (ConnectionError msg), w',
       [counted; EvCacheGet key (cache_lookup w1 key);
        EvExecute (json request) (Returns v);
        EvCacheSet key (Py.str v); EvCacheFailed msg])
    /\ db w' !! key = Some {| value := Py.str v; expire_at := None |}
    /\ (forall (n : nat) (sched' : list env_action),
          cache_lookup (env_after n sched' w') key = Some (Py.str v))
    /\ (forall sched' : list env_action,
          down (env_after 1 sched' w') = None ->
          down (env_after 2 sched' w') = None ->
          run (serve cfg request) sched' w'
          = (Ok {| body := Output (Some (Py.str v)); http_status := 200 |},
             env_after 2 sched' w',
             [counted; EvCacheGet key (Some (Py.str v));
              EvCacheGet key (Some (Py.str v))])).
Proof.
  intros Hv key counted w1 w2 w3 w4 Hup1 Hmiss Hexec Htruthy Hup3 Hdown4.
  unfold cache_key in key. subst key counted w1 w2 w3 w4.
  set (key := Py.dict_str (json request)) in *.
  set (w' := set_db (env_after 4 sched w)
               (<[key := {| value := Py.str v; expire_at := None |}]> (db w))).
  assert (Hkept : forall n sched', cache_lookup (env_after n sched' w') key = Some (Py.str v)).
  { intros n sched'. unfold w'. rewrite env_after_set_db. apply lookup_stored. }
  exists w'. repeat split.
  - rewrite (serve_valid cfg request target location query_type sched w Hv).
    unfold serve_outcome, main_outcome. cbv zeta. fold key.
    rewrite Hup1, Hmiss, Hexec, Htruthy, Hup3, Hdown4. reflexivity.
  - unfold w'. cbn [db set_db]. apply lookup_insert_eq.
  - exact Hkept.
  - intros sched' Hupa Hupb.
    rewrite (serve_valid cfg request target location query_type sched' w' Hv).
    unfold serve_outcome, main_outcome. cbv zeta. fold key.
    rewrite Hupa, (Hkept 1%nat), (falsy_nonempty _ (truthy_str_nonempty v Htruthy)),
      Hupb, (Hkept 2%nat).
    reflexivity.
Qed.

Lemma lost_expire_witness :
  exists w' : World,
    run (serve Sample.cfg Sample.request)
        [Elapse 0; Elapse 1; Elapse 0; Disconnect "Connection reset"] Sample.empty_world
    = (Raise (ConnectionError "Connection reset"), w',
       [EvCountData "192.0.2.1" "bgp_route" "router1" "8.8.8.8";
        EvCacheGet Sample.key None;
        EvExecute (json Sample.request) (Returns (Py.PyStr Sample.payload));
        EvCacheSet Sample.key Sample.payload; EvCacheFailed "Connection reset"])
    /\ db w' !! Sample.key = Some {| value := Sample.payload; expire_at := None |}
    /\ (forall (n : nat) (sched' : list env_action),
          cache_lookup (env_after n sched' w') Sample.key = Some Sample.payload)
    /\ (forall sched' : list env_action,
          down (env_after 1 sched' w') = None ->
          down (env_after 2 sched' w') = None ->
          run (serve Sample.cfg Sample.request) sched' w'
          = (Ok {| body := Output (Some Sample.payload); http_status := 200 |},
             env_after 2 sched' w',
             [EvCountData "192.0.2.1" "bgp_route" "router1" "8.8.8.8";
              EvCacheGet Sample.key (Some Sample.payload);
              EvCacheGet Sample.key (Some Sample.payload)])).
Proof.
  apply (lost_expire_leaves_entry_without_expiry Sample.cfg Sample.request
           "8.8.8.8" "router1" "bgp_route"
           [Elapse 0; Elapse 1; Elapse 0; Disconnect "Connection reset"]
           Sample.empty_world (Py.PyStr Sample.payload) "Connection reset");
    [apply (sample_valid (Execute Sample.cfg)) | reflexivity ..].
Defined.

(** ** Hits do not renew an entry *)

Lemma elapsed_nonneg (sched : list env_action) : 0 <= elapsed sched.
Proof. induction sched as [|[dt| |] sched IH]; cbn [elapsed]; lia. Qed.

Lemma elapsed_all_nonneg (scheds : list (list env_action)) : 0 <= elapsed_all scheds.
Proof.
  induction scheds as [|sched scheds IH]; cbn [elapsed_all];
    [lia | pose proof (elapsed_nonneg sched); lia].
Qed.

(** In a quiet environment the connection stays as it is and the clock
    advances by no more than the schedule lets pass. *)
Lemma quiet_env_after (n : nat) (sched : list env_action) (w : World) :
  quiet sched = true ->
  down (env_after n sched w) = down w
  /\ clock w <= clock (env_after n sched w) <= clock w + elapsed sched.
Proof.
  revert sched w. induction n as [|n IH]; intros sched w Hq.
  - cbn [env_after]. pose proof (elapsed_nonneg sched). split; [reflexivity | lia].
  - destruct sched as [|a rest].
    + cbn [env_after elapsed]. split; [reflexivity | lia].
    + cbn [quiet forallb] in Hq. apply andb_true_iff in Hq as [Ha Hrest].
      destruct a as [dt| |]; try discriminate.
      cbn [env_after elapsed].
      destruct (IH rest (apply_env (Elapse dt) w) Hrest) as [Hd Hc].
      change (down (apply_env (Elapse dt) w)) with (down w) in Hd.
      change (clock (apply_env (Elapse dt) w)) with (clock w + Z.of_N dt) in Hc.
      split; [exact Hd | lia].
Qed.

Lemma lookup_env_after (n : nat) (sched : list env_action) (w : World)
    (k : string) (e : entry) :
  db w !! k = Some e ->
  cache_lookup (env_after n sched w) k
  = if live (clock (env_after n sched w)) e then Some (value e) else None.
Proof. intros H. unfold cache_lookup. now rewrite db_env_after, H. Qed.

(** However often an entry is hit, it keeps the expiry the EXPIRE of line 286
    gave it: requests served one after the other in a quiet environment, all
    before the entry expires, are all answered with the cached value, call
    the backend never, send no SET and no EXPIRE, and leave the database as
    it was. *)
Theorem hits_do_not_renew_expiry
    (cfg : Config) (request : Request) (target location query_type : string)
    (scheds : list (list env_action)) (w : World) (v : string) (expiry : Z) :
  valid_request cfg request target location query_type ->
  down w = None ->
  forallb quiet scheds = true ->
  db w !! cache_key request = Some {| value := v; expire_at := Some expiry |} ->
  v <> "" ->
  clock w + elapsed_all scheds < expiry ->
  let results := fst (fst (serve_many cfg request scheds w)) in
  let w' := snd (fst (serve_many cfg request scheds w)) in
  let calls := snd (serve_many cfg request scheds w) in
  results
  = List.repeat (Ok {| body := Output (Some v); http_status := 200 |}) (length scheds)
  /\ db w' = db w
  /\ List.filter is_execute calls = []
  /\ List.filter is_cache_write calls = [].
Proof.
  intros Hv Hup Hq Hentry Hne Hfresh. cbv zeta.
  revert w Hup Hentry Hfresh.
  induction scheds as [|sched scheds IH]; intros w Hup Hentry Hfresh.
  - repeat split; reflexivity.
  - cbn [forallb] in Hq. apply andb_true_iff in Hq as [Hsched Hrest].
    cbn [elapsed_all] in Hfresh. pose proof (elapsed_all_nonneg scheds) as Hpos.
    destruct (quiet_env_after 1 sched w Hsched) as [Hd1 Hc1].
    destruct (quiet_env_after 2 sched w Hsched) as [Hd2 Hc2].
    assert (Hrun : run (serve cfg request) sched w
                   = (Ok {| body := Output (Some v); http_status := 200 |},
                      env_after 2 sched w,
                      [EvCountData (remote_addr request) query_type location target;
                       EvCacheGet (cache_key request) (Some v);
                       EvCacheGet (cache_key request) (Some v)])).
    { rewrite (serve_valid cfg request target location query_type sched w Hv).
      unfold serve_outcome, main_outcome. cbv zeta. fold (cache_key request).
      rewrite Hd1, Hd2, Hup.
      rewrite !(lookup_env_after _ sched w _ _ Hentry). cbn [live expire_at value].
      destruct (Z.ltb_spec (clock (env_after 1 sched w)) expiry); [|lia].
      destruct (Z.ltb_spec (clock (env_after 2 sched w)) expiry); [|lia].
      now rewrite (falsy_nonempty v Hne). }
    cbn [serve_many]. rewrite Hrun.
    specialize (IH Hrest (env_after 2 sched w)).
    rewrite Hd2, db_env_after in IH.
    destruct (IH Hup Hentry ltac:(lia)) as (Hrs & Hdb & Hex & Hwr).
    destruct (serve_many cfg request scheds (env_after 2 sched w)) as [[rs w''] l'].
    cbn [fst snd] in *. repeat split.
    + cbn [length List.repeat]. now rewrite Hrs.
    + exact Hdb.
    + cbn. exact Hex.
    + cbn. exact Hwr.
Qed.

Lemma hits_do_not_renew_expiry_witness :
  let scheds := [[Elapse 10; Elapse 1]; [Elapse 30]; []; [Elapse 20; Elapse 5; Elapse 7]] in
  let w := Sample.cached "cached answer" (Some 1100) in
  fst (fst (serve_many Sample.cfg Sample.request scheds w))
  = List.repeat (Ok {| body := Output (Some "cached answer"); http_status := 200 |}) 4
  /\ db (snd (fst (serve_many Sample.cfg Sample.request scheds w))) = db w
  /\ List.filter is_execute (snd (serve_many Sample.cfg Sample.request scheds w)) = []
  /\ List.filter is_cache_write (snd (serve_many Sample.cfg Sample.request scheds w)) = [].
Proof.
  apply (hits_do_not_renew_expiry Sample.cfg Sample.request
           "8.8.8.8" "router1" "bgp_route"
           [[Elapse 10; Elapse 1]; [Elapse 30]; []; [Elapse 20; Elapse 5; Elapse 7]]
           (Sample.cached "cached answer" (Some 1100)) "cached answer" 1100);
    [apply (sample_valid (Execute Sample.cfg)) | reflexivity | reflexivity
     | reflexivity | discriminate | reflexivity].
Defined.

(** ** The characters of a cache key *)

Lemma all_chars_append (p : ascii -> bool) (a b : string) :
  all_chars p (a ++ b) = all_chars p a && all_chars p b.
Proof.
  induction a as [|c a IH]; [reflexivity|].
  change (String c a ++ b) with (String c (a ++ b)).
  cbn [all_chars]. now rewrite IH, andb_assoc.
Qed.

Lemma repr_char_printable (q c : ascii) :
  Py.is_quote q -> all_chars Py.isprintable (Py.repr_char q c) = true.
Proof.
  intros Hq.
  assert (Hall : forallb (fun c => all_chars Py.isprintable (Py.repr_char q c))
                   Py.all_ascii = true)
    by (destruct Hq as [-> | ->]; vm_compute; reflexivity).
  apply (PyFacts.forall_ascii _ Hall).
Qed.

Lemma repr_body_printable (q : ascii) (s : string) :
  Py.is_quote q -> all_chars Py.isprintable (Py.repr_body q s) = true.
Proof.
  intros Hq. induction s as [|c s IH]; [reflexivity|].
  cbn [Py.repr_body]. now rewrite all_chars_append, repr_char_printable, IH.
Qed.

Lemma repr_str_printable (s : string) : all_chars Py.isprintable (Py.repr_str s) = true.
Proof.
  unfold Py.repr_str. cbv zeta.
  pose proof (PyFacts.repr_quote_is_quote s) as Hq.
  assert (Hqp : Py.isprintable (Py.repr_quote s) = true)
    by (destruct Hq as [-> | ->]; reflexivity).
  cbn [all_chars]. rewrite Hqp, all_chars_append, (repr_body_printable _ s Hq).
  cbn [all_chars andb]. now rewrite Hqp.
Qed.

(** Whatever characters a client puts into the fields of a request, the
    cache key is one line of printable characters: control characters, the
    quote in use and the backslash only occur escaped. *)
Theorem cache_key_is_printable (request : Request) :
  all_chars Py.isprintable (cache_key request) = true.
Proof.
  unfold cache_key, Py.dict_str.
  change ("{" ++ ?x) with (String "{" x).
  cbn [all_chars]. rewrite all_chars_append. cbn [all_chars andb].
  change (Py.isprintable "{") with true. change (Py.isprintable "}") with true.
  rewrite andb_true_r. cbn [andb].
  induction (json request) as [|[k v] d IH]; [reflexivity|].
  assert (Hitem : all_chars Py.isprintable (Py.repr_item (k, v)) = true).
  { unfold Py.repr_item. cbn [fst snd].
    now rewrite !all_chars_append, !repr_str_printable. }
  destruct d as [|kv d]; cbn [map String.concat] in *; [exact Hitem|].
  rewrite !all_chars_append, Hitem, IH. reflexivity.
Qed.

(** ** A timeout that has passed before the final GET *)

(** On a miss answered with a truthy value, when [cache_timeout] is zero or
    less, or when as much time passes between the EXPIRE of line 286 and the
    GET of line 291, the entry has expired before it is read back: the
    response is status 200 with a null output, although the backend
    answered. *)
Theorem expired_before_read_back_gives_null_output
    (cfg : Config) (request : Request) (target location query_type : string)
    (sched : list env_action) (w : World) (v : Py.pyval) :
  valid_request cfg request target location query_type ->
  let key := cache_key request in
  let w1 := env_after 1 sched w in
  let w2 := env_after 2 sched w in
  let w3 := env_after 3 sched w in
  let w4 := env_after 4 sched w in
  let w5 := env_after 5 sched w in
  down w1 = None ->
  falsy (cache_lookup w1 key) = true ->
  Execute cfg (clock w2) (json request) = Returns v ->
  Py.truthy v = true ->
  down w3 = None -> down w4 = None -> down w5 = None ->
  cache_timeout cfg <= 0 \/ clock w4 + cache_timeout cfg <= clock w5 ->
  fst (fst (run (serve cfg request) sched w))
  = Ok {| body := Output None; http_status := 200 |}
  /\ snd (run (serve cfg request) sched w)
     = [EvCountData (remote_addr request) query_type location target;
        EvCacheGet key (cache_lookup w1 key);
        EvExecute (json request) (Returns v);
        EvCacheSet key (Py.str v);
        EvCacheExpire key (cache_timeout cfg);
        EvCacheGet key None].
Proof.
  intros Hv key w1 w2 w3 w4 w5 Hup1 Hmiss Hexec Htruthy Hup3 Hup4 Hup5 Hlate.
  unfold cache_key in key. subst key w1 w2 w3 w4 w5.
  assert (Hexp : (clock (env_after 5 sched w)
                  <? clock (env_after 4 sched w) + cache_timeout cfg) = false).
  { pose proof (clock_env_after_S 4 sched w). apply Z.ltb_ge. lia. }
  rewrite (serve_valid cfg request target location query_type sched w Hv).
  unfold serve_outcome, main_outcome. cbv zeta.
  rewrite Hup1, Hmiss, Hexec, Htruthy, Hup3, Hup4, Hup5, Hexp.
  split; reflexivity.
Qed.

Lemma expired_before_read_back_witness :
  let cfg := {| hostnames := ["router1"];
                is_supported_query := Py.contains ["bgp_route"];
                no_input := "A target must be specified";
                request_timeout := "Request timed out";
                cache_timeout := 0;
                get_reason := fun _ => "error";
                Execute := fun _ _ => Returns (Py.PyStr Sample.payload) |} in
  fst (fst (run (serve cfg Sample.request) [] Sample.empty_world))
  = Ok {| body := Output None; http_status := 200 |}
  /\ snd (run (serve cfg Sample.request) [] Sample.empty_world)
     = [EvCountData "192.0.2.1" "bgp_route" "router1" "8.8.8.8";
        EvCacheGet Sample.key None;
        EvExecute (json Sample.request) (Returns (Py.PyStr Sample.payload));
        EvCacheSet Sample.key Sample.payload;
        EvCacheExpire Sample.key 0;
        EvCacheGet Sample.key None].
Proof.
  apply (expired_before_read_back_gives_null_output
           {| hostnames := ["router1"];
              is_supported_query := Py.contains ["bgp_route"];
              no_input := "A target must be specified";
              request_timeout := "Request timed out";
              cache_timeout := 0;
              get_reason := fun _ => "error";
              Execute := fun _ _ => Returns (Py.PyStr Sample.payload) |}
           Sample.request "8.8.8.8" "router1" "bgp_route" [] Sample.empty_world
           (Py.PyStr Sample.payload));
    [split; (reflexivity || discriminate) | reflexivity .. | left; reflexivity].
Defined.

(** ** One cache for every client *)

Lemma valid_request_same_body
    (cfg : Config) (request other : Request) (target location query_type : string) :
  json other = json request ->
  valid_request cfg request target location query_type ->
  valid_request cfg other target location query_type.
Proof. intros Hjson [Ht Hne Hl Hk Hq Hs]. split; rewrite ?Hjson; assumption. Qed.

(** The key does not name the client. Once a request has been answered from
    the backend with [v], a request with the same body from any other client
    address, whose value fetch comes less than [cache_timeout] after the
    EXPIRE, is answered with [str(v)] from the cache without a backend call;
    its update of the query counter carries its own address. *)
Theorem cached_answer_serves_every_client
    (cfg : Config) (request other : Request) (target location query_type : string)
    (sched1 sched2 : list env_action) (w0 w1 : World)
    (resp1 : response) (log1 : list event) (v : Py.pyval) :
  valid_request cfg request target location query_type ->
  json other = json request ->
  run (serve cfg request) sched1 w0 = (Ok resp1, w1, log1) ->
  In (EvExecute (json request) (Returns v)) log1 ->
  let wa := env_after 1 sched2 w1 in
  let wb := env_after 2 sched2 w1 in
  down wa = None -> down wb = None ->
  clock wb < clock (env_after 4 sched1 w0) + cache_timeout cfg ->
  run (serve cfg other) sched2 w1
  = (Ok {| body := Output (Some (Py.str v)); http_status := 200 |}, wb,
     [EvCountData (remote_addr other) query_type location target;
      EvCacheGet (cache_key request) (Some (Py.str v));
      EvCacheGet (cache_key request) (Some (Py.str v))]).
Proof.
  intros Hv Hjson Hrun Hin wa wb Hupa Hupb Hfresh.
  destruct (served_from_backend cfg request target location query_type
              sched1 w0 resp1 w1 log1 v Hv Hrun Hin) as (Htruthy & _ & Hw1).
  pose proof (truthy_str_nonempty v Htruthy) as Hne.
  pose proof (clock_env_after_le 1 2 sched2 (env_after 5 sched1 w0) ltac:(lia)) as Hmono.
  pose proof (valid_request_same_body cfg request other _ _ _ Hjson Hv) as Hv'.
  subst wa wb w1.
  rewrite (serve_valid cfg other target location query_type sched2 _ Hv').
  unfold serve_outcome, main_outcome, cache_key. cbv zeta. rewrite Hjson.
  unfold cache_key in *.
  rewrite !env_after_set_db in *. rewrite !lookup_expiring.
  cbn [down clock set_db] in *. rewrite Hupa, Hupb.
  set (t := clock (env_after 4 sched1 w0) + cache_timeout cfg) in *.
  destruct (Z.ltb_spec (clock (env_after 1 sched2 (env_after 5 sched1 w0))) t); [|lia].
  destruct (Z.ltb_spec (clock (env_after 2 sched2 (env_after 5 sched1 w0))) t); [|lia].
  rewrite (falsy_nonempty _ Hne). reflexivity.
Qed.

Lemma cached_answer_serves_every_client_witness :
  let other := {| json := json Sample.request; remote_addr := "198.51.100.7" |} in
  let w1 := snd (fst (run (serve Sample.cfg Sample.request) [] Sample.empty_world)) in
  run (serve Sample.cfg other) [Elapse 60; Elapse 1] w1
  = (Ok {| body := Output (Some Sample.payload); http_status := 200 |},
     env_after 2 [Elapse 60; Elapse 1] w1,
     [EvCountData "198.51.100.7" "bgp_route" "router1" "8.8.8.8";
      EvCacheGet Sample.key (Some Sample.payload);
      EvCacheGet Sample.key (Some Sample.payload)]).
Proof.
  apply (cached_answer_serves_every_client Sample.cfg Sample.request
           {| json := json Sample.request; remote_addr := "198.51.100.7" |}
           "8.8.8.8" "router1" "bgp_route" [] [Elapse 60; Elapse 1]
           Sample.empty_world _
           {| body := Output (Some Sample.payload); http_status := 200 |}
           [EvCountData "192.0.2.1" "bgp_route" "router1" "8.8.8.8";
            EvCacheGet Sample.key None;
            EvExecute (json Sample.request) (Returns (Py.PyStr Sample.payload));
            EvCacheSet Sample.key Sample.payload;
            EvCacheExpire Sample.key 120;
            EvCacheGet Sample.key (Some Sample.payload)]
           (Py.PyStr Sample.payload));
    [apply (sample_valid (Execute Sample.cfg)) | reflexivity | reflexivity
     | simpl; tauto | reflexivity | reflexivity | reflexivity].
Defined.
